(** * CRUD request handlers of the infrastructure-as-code labs

    A shallow embedding of the Lambda handlers of the repository and the
    properties of their routing and CRUD contract:

    - [Actors]      solutions/01-DeployLambdaUsingCDK/src/index.ts
                    (class ActorsController and handler, AWS SDK v3);
    - [TVShowsL3]   cdk/src/lambda-l3/index.ts
                    (class TVShowsController and handler, AWS SDK v3);
    - [TVShowsL1]   cdk/src/lambda-l3/index.ts
                    (the handler without a controller, AWS SDK v3);
    - [TVShowsDoc]  the TypeScript TVShowsController built on
                    DynamoDB.DocumentClient (AWS SDK v2) and its handler.

    The handlers are asynchronous functions over a DynamoDB table, the
    process environment and the clock.  They are embedded as functions in
    a state-and-exception monad over a [World] that holds exactly these. *)

From stdpp Require Import gmap strings list fin_maps pretty.
From Stdlib Require Import Ascii QArith_base Qreduction.

#[local] Set Warnings "-register-all".
#[local] Open Scope Z_scope.

(** ** JSON values *)

(** What JSON.parse returns and JSON.stringify accepts.  A number is the
    rational that a double is: the handlers copy numbers and test them
    for zero, and never compute with them.  A string is kept as the
    bytes of its UTF-8 encoding (a surrogate that stands alone as the
    three bytes of its code).  An object is a finite map from property
    names to values; a property whose value is [undefined] is an absent
    key (JSON.stringify omits such properties). *)
Inductive JSON : Type :=
| JNull
| JBool (b : bool)
| JNum (q : Q)
| JStr (s : string)
| JArr (items : list JSON)
| JObj (fields : gmap string JSON).

(** A DynamoDB item, and the value of a property read: [None] is
    [undefined]. *)
Abbreviation Entity := (gmap string JSON).
Abbreviation Value := (option JSON).

(** JavaScript truthiness: [!v] is [negb (truthy v)]. *)
Definition truthy (v : JSON) : bool :=
  match v with
  | JNull => false
  | JBool b => b
  | JNum q => negb (Qnum q =? 0)
  | JStr s => negb (String.eqb s "")
  | JArr _ | JObj _ => true
  end.

Definition truthy_value (o : Value) : bool :=
  match o with Some v => truthy v | None => false end.

(** [a || d] *)
Definition or_else (o : Value) (d : JSON) : JSON :=
  match o with
  | Some v => if truthy v then v else d
  | None => d
  end.

(** [a ?? d] *)
Definition nullish_else (o : Value) (d : JSON) : JSON :=
  match o with
  | Some JNull | None => d
  | Some v => v
  end.

(** [o.k = v] on a plain object, and a property [k: v] of an object
    literal: an [undefined] value leaves no key behind. *)
Definition assign (k : string) (o : Value) (m : Entity) : Entity :=
  match o with
  | Some v => <[k := v]> m
  | None => delete k m
  end.

(** An object literal [{k1: v1, ..., kn: vn}]. *)
Definition object (props : list (string * Value)) : Entity :=
  foldl (λ m p, assign p.1 p.2 m) ∅ props.

(** The value of property [k] in an object literal: that of the last
    property of that name. *)
Definition last_of (k : string) (props : list (string * Value)) (o : Value) : Value :=
  foldl (λ o p, if String.eqb p.1 k then p.2 else o) o props.

Definition byte (n : Z) : Ascii.ascii := Ascii.ascii_of_nat (Z.to_nat n).

Definition code (c : Ascii.ascii) : Z := Z.of_nat (Ascii.nat_of_ascii c).

(** The UTF-8 bytes of a code point, before [rest]. *)
Definition utf8 (u : Z) (rest : string) : string :=
  if u <? 128 then String (byte u) rest
  else if u <? 2048 then
    String (byte (192 + u / 64)) (String (byte (128 + u mod 64)) rest)
  else if u <? 65536 then
    String (byte (224 + u / 4096))
      (String (byte (128 + (u / 64) mod 64)) (String (byte (128 + u mod 64)) rest))
  else
    String (byte (240 + u / 262144))
      (String (byte (128 + (u / 4096) mod 64))
         (String (byte (128 + (u / 64) mod 64)) (String (byte (128 + u mod 64)) rest))).

(** The UTF-16 code units of a string, which are what a string has as
    its indexed properties, each as a string: a character beyond the
    basic plane is two surrogates. *)
Fixpoint code_units (s : string) : list string :=
  match s with
  | EmptyString => []
  | String a s1 =>
      let one := String a EmptyString :: code_units s1 in
      if code a <? 192 then one
      else
        match s1 with
        | String b s2 =>
            if code a <? 224 then String a (String b EmptyString) :: code_units s2
            else
              match s2 with
              | String c s3 =>
                  if code a <? 240 then
                    String a (String b (String c EmptyString)) :: code_units s3
                  else
                    match s3 with
                    | String d s4 =>
                        let u := (code a mod 8) * 262144 + (code b mod 64) * 4096 +
                                 (code c mod 64) * 64 + code d mod 64 - 65536 in
                        utf8 (55296 + u / 1024) EmptyString ::
                        utf8 (56320 + u mod 1024) EmptyString ::
                        code_units s4
                    | EmptyString => one
                    end
              | EmptyString => one
              end
        | EmptyString => one
        end
  end.

(** The index-named own properties of an array-like value. *)
Definition indexed (l : list JSON) : Entity :=
  list_to_map (imap (λ i v, (pretty i, v)) l).

(** The numbers between Number.MIN_SAFE_INTEGER and
    Number.MAX_SAFE_INTEGER. *)
Definition safe_number (q : Q) : bool :=
  Z.abs (Qnum q) <=? 9007199254740991 * Z.pos (Qden q).

(** The values that the document client of SDK v3 marshalls with its
    default options: those in which every number, at any depth, is
    between the safe integers. *)
Fixpoint marshalls (v : JSON) : bool :=
  match v with
  | JNum q => safe_number q
  | JArr l => forallb marshalls l
  | JObj m => map_fold (λ _ v rest, marshalls v && rest) true m
  | JNull | JBool _ | JStr _ => true
  end.

(** ** Errors and results *)

(** A thrown Error object. *)
Record Error := { name : string; message : string }.

Inductive Result (A : Type) : Type :=
| Ok (a : A)
| Throw (e : Error).
Arguments Ok {A} a.
Arguments Throw {A} e.

(** How a property access fails. *)
Inductive Access := Reading | Destructuring | Assigning.

(** ** The host *)

(** The builtins of the JavaScript engine that the handlers call.
    [JSON_parse] returns the SyntaxError it throws on a text that is not
    JSON; the wording of the engine's own errors is the engine's. *)
Record Host := {
  JSON_parse : string → Error + JSON;
  toISOString : Z → string;
  Number_toString : Q → string;
  TypeError_message : Access → JSON → string → string;
}.

Section JS.
Context (host : Host).

Definition TypeError (a : Access) (v : JSON) (p : string) : Error :=
  {| name := "TypeError"; message := TypeError_message host a v p |}.

(** [String(v)], as a template literal [`${v}`] converts a value. *)
Fixpoint ToString (v : JSON) : string :=
  match v with
  | JNull => "null"
  | JBool b => if b then "true" else "false"
  | JNum q => Number_toString host q
  | JStr s => s
  | JArr l =>
      String.concat ","
        (map (λ x, match x with JNull => "" | _ => ToString x end) l)
  | JObj _ => "[object Object]"
  end.

(** [v.p], for the property names the handlers read (id, name, title,
    age, ...): none of them is defined on the prototype of an array, a
    string, a number or a boolean, so only an object has them; reading
    a property of [null] throws. *)
Definition prop (v : JSON) (p : string) : Result Value :=
  match v with
  | JNull => Throw (TypeError Reading v p)
  | JObj m => Ok (m !! p)
  | _ => Ok None
  end.

(** The own enumerable properties that a rest pattern [{...rest} = v]
    collects: those of an object, the elements of an array and the
    code units of a string under their indices, none for a number or a
    boolean; [null] cannot be destructured.  [p] is the first property
    the pattern names. *)
Definition own_properties (v : JSON) (p : string) : Result Entity :=
  match v with
  | JNull => Throw (TypeError Destructuring v p)
  | JObj m => Ok m
  | JArr l => Ok (indexed l)
  | JStr s => Ok (indexed (JStr <$> code_units s))
  | JNum _ | JBool _ => Ok ∅
  end.
End JS.

(** ** The world: environment, table, clock *)

(** The commands of the document client.  [TableName] is what the handler
    passes, [None] when it passes [undefined]. *)
Inductive Command :=
| ScanCommand (TableName : option string)
| GetCommand (TableName : option string) (Key : JSON)
| PutCommand (TableName : option string) (Item : Entity)
| DeleteCommand (TableName : option string) (Key : JSON).

Definition TableName_of (c : Command) : option string :=
  match c with
  | ScanCommand t | GetCommand t _ | PutCommand t _ | DeleteCommand t _ => t
  end.

(** What the service does with the next command that reaches it: how long
    it takes, and whether it fails (throttling, permissions, network, a
    limit of the service that the command exceeds). *)
Record Reply := { latency : N; fault : option Error }.

Record World := {
  TABLE_NAME : option string;           (* process.env.TABLE_NAME *)
  table : gmap string Entity;             (* the items, by their key [id] *)
  clock : Z;                            (* milliseconds since the epoch *)
  replies : list Reply;                 (* the service's coming replies *)
  sent : list Command;                  (* every command handed to a client *)
}.

(** The output of a command, with the fields the handlers read. *)
Record Output := { Item : option Entity; Items : list Entity; Count : nat }.

Definition no_output : Output := {| Item := None; Items := []; Count := 0 |}.

(** ** The monad of the handlers *)

Definition M (A : Type) : Type := World → Result A * World.

#[global] Instance M_ret : MRet M := λ A a w, (Ok a, w).
#[global] Instance M_bind : MBind M := λ A B f m w,
  match m w with
  | (Ok a, w') => f a w'
  | (Throw e, w') => (Throw e, w')
  end.

Definition throw {A} (e : Error) : M A := λ w, (Throw e, w).

Definition lift {A} (r : Result A) : M A := λ w, (r, w).

(** [try { m } catch (error) { h error }] *)
Definition try_catch {A} (m : M A) (h : Error → M A) : M A := λ w,
  match m w with
  | (Ok a, w') => (Ok a, w')
  | (Throw e, w') => h e w'
  end.

(** [process.env.TABLE_NAME] *)
Definition getenv_TABLE_NAME : M (option string) := λ w, (Ok (TABLE_NAME w), w).

(** [Date.now()]; [new Date()] reads the same clock. *)
Definition Date_now : M Z := λ w, (Ok (clock w), w).

(** ** The service *)

Definition ValidationException (m : string) : Error :=
  {| name := "ValidationException"; message := m |}.

(** The type of a value as an attribute of an item. *)
Definition attribute_type (v : JSON) : string :=
  match v with
  | JNull => "NULL"
  | JBool _ => "BOOL"
  | JNum _ => "N"
  | JStr _ => "S"
  | JArr _ => "L"
  | JObj _ => "M"
  end.

Definition key_mismatch : Error :=
  ValidationException "The provided key element does not match the schema".

Definition type_mismatch (v : JSON) : Error :=
  ValidationException
    ("One or more parameter values were invalid: " +:+
     "Type mismatch for key id expected: S actual: " +:+ attribute_type v).

Definition missing_key : Error :=
  ValidationException
    "One or more parameter values were invalid: Missing the key id in the item".

Definition missing_table_name : Error :=
  ValidationException
    ("1 validation error detected: Value null at 'tableName' failed to " +:+
     "satisfy constraint: Member must not be null").

(** The effect of a command on the table it names.  The stacks declare
    the table's only key attribute, [id], of type STRING: a key of another
    type, and an item without a string [id], are rejected. *)
Definition execute (c : Command) (t : gmap string Entity) : Result Output * gmap string Entity :=
  match c with
  | ScanCommand _ =>
      let items := (map_to_list t).*2 in
      (Ok {| Item := None; Items := items; Count := length items |}, t)
  | GetCommand _ (JStr k) =>
      (Ok {| Item := t !! k; Items := []; Count := 0 |}, t)
  | PutCommand _ item =>
      match item !! "id" with
      | Some (JStr k) => (Ok no_output, <[k := item]> t)
      | Some v => (Throw (type_mismatch v), t)
      | None => (Throw missing_key, t)
      end
  | DeleteCommand _ (JStr k) => (Ok no_output, delete k t)
  | GetCommand _ _ | DeleteCommand _ _ => (Throw key_mismatch, t)
  end.

Definition next_reply (w : World) : Reply :=
  default {| latency := 0; fault := None |} (head (replies w)).

(** The world once a command has been handed to the client ... *)
Definition logged (c : Command) (w : World) : World :=
  {| TABLE_NAME := TABLE_NAME w; table := table w; clock := clock w;
     replies := replies w; sent := sent w ++ [c] |}.

(** ... and once the service has answered, leaving the table [t]. *)
Definition answered (t : gmap string Entity) (w : World) : World :=
  {| TABLE_NAME := TABLE_NAME w; table := t;
     clock := clock w + Z.of_N (latency (next_reply w));
     replies := tail (replies w); sent := sent w |}.

(** What the service does with a command that reaches it: it takes its
    time and either fails, leaving the table as it was, or validates and
    executes the command. *)
Definition serve (c : Command) : M Output := λ w,
  match fault (next_reply w) with
  | Some e => (Throw e, answered (table w) (logged c w))
  | None =>
      match TableName_of c with
      | None => (Throw missing_table_name, answered (table w) (logged c w))
      | Some _ =>
          let '(out, t) := execute c (table w) in
          (out, answered t (logged c w))
      end
  end.

(** ** The document clients *)

(** *** DynamoDBDocumentClient, of SDK v3 *)

(** The error of the marshaller on a number that is not between the safe
    integers.  Its message names the number that the marshaller met
    first, which the order of the properties decides; the handlers on
    this client catch the error and read nothing of it. *)
Definition unsafe_number : Error :=
  {| name := "Error";
     message := "Number is not between Number.MIN_SAFE_INTEGER and " +:+
                "Number.MAX_SAFE_INTEGER. Use BigInt." |}.

(** What the client marshalls of a command: the key, or the item. *)
Definition marshalled (c : Command) : bool :=
  match c with
  | ScanCommand _ => true
  | GetCommand _ key | DeleteCommand _ key => marshalls key
  | PutCommand _ item => marshalls (JObj item)
  end.

(** [await dynamoDB.send(command)].  The client marshalls the command,
    which throws before anything is sent when a number is not safe, and
    sends it whether it names a table or not. *)
Definition send (c : Command) : M Output := λ w,
  if marshalled c then serve c w
  else (Throw unsafe_number, logged c w).

(** *** DynamoDB.DocumentClient, of SDK v2 *)

Definition MissingRequiredParameter : Error :=
  {| name := "MissingRequiredParameter";
     message := "Missing required key 'TableName' in params" |}.

(** [await this.dynamoDB.scan(params).promise()], and likewise for get,
    put and delete.  The client validates the parameters, which refuses
    a command without a table name before anything is sent, and converts
    every number as it is. *)
Definition promise (c : Command) : M Output := λ w,
  match TableName_of c with
  | None => (Throw MissingRequiredParameter, logged c w)
  | Some _ => serve c w
  end.

(** ** Responses *)

(** The body of a response: a string written as such, or the result of
    JSON.stringify on a value (never the empty string). *)
Inductive Body :=
| Raw (s : string)
| JSON_stringify (v : JSON).

Definition body_is_empty (b : Body) : bool :=
  match b with
  | Raw s => String.eqb s ""
  | JSON_stringify _ => false
  end.

(** APIGatewayProxyResult; a result without a [headers] property has the
    empty map. *)
Record APIGatewayProxyResult := {
  statusCode : Z;
  headers : gmap string string;
  body : Body;
}.

(** APIGatewayProxyEvent, with the fields the handlers read. *)
Record APIGatewayProxyEvent := {
  httpMethod : string;
  resource : string;
  path : string;
  pathParameters : option (gmap string string);
  event_body : option string;
}.

(** [event.pathParameters?.id] *)
Definition pathParameters_id (event : APIGatewayProxyEvent) : option string :=
  pathParameters event ≫= (λ ps, ps !! "id").

(** [s || d] on an optional string. *)
Definition text_or (o : option string) (d : string) : string :=
  match o with
  | Some s => if String.eqb s "" then d else s
  | None => d
  end.

(** [!s] on an optional string. *)
Definition missing (o : option string) : bool :=
  match o with
  | Some s => String.eqb s ""
  | None => true
  end.

Definition json_headers : gmap string string :=
  {[ "Content-Type" := "application/json" ]}.

Definition cors_headers : gmap string string :=
  <["Access-Control-Allow-Origin" := "*"]> json_headers.

(** [JSON.stringify({ message: m })] *)
Definition message_body (m : string) : Body :=
  JSON_stringify (JObj {[ "message" := JStr m ]}).

(** ** ActorsController and its handler
    (solutions/01-DeployLambdaUsingCDK/src/index.ts) *)

Module Actors.
Section Handler.
Context (host : Host).

Section Controller.
Context (tableName : string).

(** GET /actors *)
Definition listAll : M APIGatewayProxyResult :=
  try_catch
    (result ← send (ScanCommand (Some tableName));
     mret {| statusCode := 200;
             headers := cors_headers;
             body := JSON_stringify (JObj (object [
               ("actors", Some (JArr (JObj <$> Items result)));
               ("count", Some (JNum (inject_Z (Z.of_nat (Count result)))))])) |})
    (λ error,
     mret {| statusCode := 500;
             headers := json_headers;
             body := message_body "Failed to retrieve actors" |}).

(** GET /actors/{id} *)
Definition getById (id : string) : M APIGatewayProxyResult :=
  try_catch
    (result ← send (GetCommand (Some tableName) (JStr id));
     match Item result with
     | None =>
         mret {| statusCode := 404;
                 headers := json_headers;
                 body := message_body ("Actor with id " +:+ id +:+ " not found") |}
     | Some item =>
         mret {| statusCode := 200;
                 headers := cors_headers;
                 body := JSON_stringify (JObj item) |}
     end)
    (λ error,
     mret {| statusCode := 500;
             headers := json_headers;
             body := message_body "Failed to retrieve actor" |}).

(** The [newActor] of create. *)
Definition newActor (id name : JSON) (age nationality knownFor isActive : Value)
    (now : string) : Entity :=
  object [
    ("id", Some id);
    ("name", Some name);
    ("age", age);
    ("nationality", nationality);
    ("knownFor", Some (or_else knownFor (JArr [])));
    ("isActive", Some (nullish_else isActive (JBool true)));
    ("createdAt", Some (JStr now));
    ("updatedAt", Some (JStr now))].

(** POST /actors *)
Definition create (actor : JSON) : M APIGatewayProxyResult :=
  try_catch
    (id ← lift (prop host actor "id");
     name ← lift (prop host actor "name");
     match id, name with
     | Some id, Some name =>
         if truthy id && truthy name then
           existingActor ← send (GetCommand (Some tableName) id);
           match Item existingActor with
           | Some _ =>
               mret {| statusCode := 409;
                       headers := json_headers;
                       body := message_body
                         ("Actor with id " +:+ ToString host id +:+ " already exists") |}
           | None =>
               age ← lift (prop host actor "age");
               nationality ← lift (prop host actor "nationality");
               knownFor ← lift (prop host actor "knownFor");
               isActive ← lift (prop host actor "isActive");
               t ← Date_now;
               let now := toISOString host t in
               let newActor :=
                 newActor id name age nationality knownFor isActive now in
               _ ← send (PutCommand (Some tableName) newActor);
               mret {| statusCode := 201;
                       headers := cors_headers;
                       body := JSON_stringify (JObj newActor) |}
           end
         else
           mret {| statusCode := 400;
                   headers := json_headers;
                   body := message_body "id and name are required fields" |}
     | _, _ =>
         mret {| statusCode := 400;
                 headers := json_headers;
                 body := message_body "id and name are required fields" |}
     end)
    (λ error,
     mret {| statusCode := 500;
             headers := json_headers;
             body := message_body "Failed to create actor" |}).

(** The [updatedActor] of update: the stored item, the allowed
    updates over it, and the new updatedAt. *)
Definition updatedActor (item rest : Entity) (now : string) : Entity :=
  let allowedUpdates := delete "createdAt" (delete "id" rest) in
  <["updatedAt" := JStr now]> (allowedUpdates ∪ item).

(** PUT /actors/{id} *)
Definition update (id : string) (updates : JSON) : M APIGatewayProxyResult :=
  try_catch
    (existingActor ← send (GetCommand (Some tableName) (JStr id));
     match Item existingActor with
     | None =>
         mret {| statusCode := 404;
                 headers := json_headers;
                 body := message_body ("Actor with id " +:+ id +:+ " not found") |}
     | Some item =>
         rest ← lift (own_properties host updates "id");
         t ← Date_now;
         let updatedActor := updatedActor item rest (toISOString host t) in
         _ ← send (PutCommand (Some tableName) updatedActor);
         mret {| statusCode := 200;
                 headers := cors_headers;
                 body := JSON_stringify (JObj updatedActor) |}
     end)
    (λ error,
     mret {| statusCode := 500;
             headers := json_headers;
             body := message_body "Failed to update actor" |}).

(** DELETE /actors/{id} *)
Definition delete (id : string) : M APIGatewayProxyResult :=
  try_catch
    (existingActor ← send (GetCommand (Some tableName) (JStr id));
     match Item existingActor with
     | None =>
         mret {| statusCode := 404;
                 headers := json_headers;
                 body := message_body ("Actor with id " +:+ id +:+ " not found") |}
     | Some _ =>
         _ ← send (DeleteCommand (Some tableName) (JStr id));
         mret {| statusCode := 204;
                 headers := {[ "Access-Control-Allow-Origin" := "*" ]};
                 body := Raw "" |}
     end)
    (λ error,
     mret {| statusCode := 500;
             headers := json_headers;
             body := message_body "Failed to delete actor" |}).
End Controller.

Definition id_required : APIGatewayProxyResult :=
  {| statusCode := 400;
     headers := json_headers;
     body := message_body "Actor ID is required" |}.

(** [JSON.parse(event.body || '{}')] *)
Definition parse_body (event : APIGatewayProxyEvent) : M JSON :=
  match JSON_parse host (text_or (event_body event) "{}") with
  | inl e => throw e
  | inr v => mret v
  end.

(** The [switch] of the handler, inside its [try]. *)
Definition dispatch (tableName : string) (event : APIGatewayProxyEvent)
    : M APIGatewayProxyResult :=
  let method := httpMethod event in
  let resource := resource event in
  let actorId := pathParameters_id event in
  let route := method +:+ ":" +:+ resource in
  if String.eqb route "GET:/actors" then
    listAll tableName
  else if String.eqb route "GET:/actors/{id}" then
    if missing actorId then mret id_required
    else getById tableName (default "" actorId)
  else if String.eqb route "POST:/actors" then
    createData ← parse_body event;
    create tableName createData
  else if String.eqb route "PUT:/actors/{id}" then
    if missing actorId then mret id_required
    else
      updateData ← parse_body event;
      update tableName (default "" actorId) updateData
  else if String.eqb route "DELETE:/actors/{id}" then
    if missing actorId then mret id_required
    else delete tableName (default "" actorId)
  else
    mret {| statusCode := 400;
            headers := json_headers;
            body := message_body
              ("Unsupported operation: " +:+ method +:+ " " +:+ resource) |}.

Definition handler (event : APIGatewayProxyEvent) : M APIGatewayProxyResult :=
  tableName ← getenv_TABLE_NAME;
  if missing tableName then
    mret {| statusCode := 500;
            headers := json_headers;
            body := message_body "TABLE_NAME environment variable not set" |}
  else
    try_catch
      (dispatch (default "" tableName) event)
      (λ error,
       mret {| statusCode := 500;
               headers := json_headers;
               body := message_body "Internal server error" |}).
End Handler.
End Actors.

(** ** TVShowsController and its handler, L3 variant
    (cdk/src/lambda-l3/index.ts) *)

(** [\w] or [-] *)
Definition item_char (c : Ascii.ascii) : bool :=
  let n := Ascii.nat_of_ascii c in
  ((48 <=? n) && (n <=? 57) || (65 <=? n) && (n <=? 90) ||
   (97 <=? n) && (n <=? 122) || (n =? 95) || (n =? 45))%nat.

Fixpoint strip_prefix (p s : string) : option string :=
  match p, s with
  | EmptyString, _ => Some s
  | String a p', String b s' => if Ascii.eqb a b then strip_prefix p' s' else None
  | String _ _, EmptyString => None
  end.

(** [path.match(/\/tvshows\/[\w-]+/)] finds a match: somewhere in the
    path, "/tvshows/" is followed by a word character or a hyphen. *)
Fixpoint matches_item_path (path : string) : bool :=
  match strip_prefix "/tvshows/" path with
  | Some (String c _) => item_char c
  | _ => false
  end
  || match path with
     | EmptyString => false
     | String _ rest => matches_item_path rest
     end.

Module TVShowsL3.
Section Handler.
Context (host : Host).

Section Controller.
Context (tableName : string).

Definition listAll : M APIGatewayProxyResult :=
  data ← send (ScanCommand (Some tableName));
  mret {| statusCode := 200;
          headers := ∅;
          body := JSON_stringify (JArr (JObj <$> Items data)) |}.

Definition getById (id : string) : M APIGatewayProxyResult :=
  data ← send (GetCommand (Some tableName) (JStr id));
  match Item data with
  | None =>
      mret {| statusCode := 404;
              headers := ∅;
              body := message_body "TV show not found" |}
  | Some item =>
      mret {| statusCode := 200;
              headers := ∅;
              body := JSON_stringify (JObj item) |}
  end.

(** The [Item] that create puts. *)
Definition newItem (id title genre year rating : Value) (now : string) : Entity :=
  object [
    ("id", id);
    ("title", title);
    ("genre", Some (or_else genre (JStr "")));
    ("year", Some (or_else year JNull));
    ("rating", Some (or_else rating JNull));
    ("createdAt", Some (JStr now))].

Definition create (tvShow : JSON) : M APIGatewayProxyResult :=
  id ← lift (prop host tvShow "id");
  title ← lift (prop host tvShow "title");
  if negb (truthy_value id) || negb (truthy_value title) then
    mret {| statusCode := 400;
            headers := ∅;
            body := message_body "ID and title are required" |}
  else
    genre ← lift (prop host tvShow "genre");
    year ← lift (prop host tvShow "year");
    rating ← lift (prop host tvShow "rating");
    t ← Date_now;
    _ ← send (PutCommand (Some tableName)
                (newItem id title genre year rating (toISOString host t)));
    mret {| statusCode := 201;
            headers := ∅;
            body := JSON_stringify (JObj (object [
              ("message", Some (JStr "TV show created successfully"));
              ("id", id)])) |}.

Definition deleteById (id : string) : M APIGatewayProxyResult :=
  _ ← send (DeleteCommand (Some tableName) (JStr id));
  mret {| statusCode := 200;
          headers := ∅;
          body := message_body "TV show deleted successfully" |}.
End Controller.

Definition id_required : APIGatewayProxyResult :=
  {| statusCode := 400; headers := ∅; body := message_body "ID is required" |}.

(** The chain of [if]s of the handler, inside its [try]. *)
Definition dispatch (tableName : string) (event : APIGatewayProxyEvent)
    : M APIGatewayProxyResult :=
  let method := httpMethod event in
  let path := path event in
  if String.eqb method "GET" && String.eqb path "/tvshows" then
    listAll tableName
  else if String.eqb method "GET" && matches_item_path path then
    let id := pathParameters_id event in
    if missing id then mret id_required
    else getById tableName (default "" id)
  else if String.eqb method "POST" && String.eqb path "/tvshows" then
    if missing (event_body event) then
      mret {| statusCode := 400;
              headers := ∅;
              body := message_body "Request body is required" |}
    else
      match JSON_parse host (default "" (event_body event)) with
      | inl e => throw e
      | inr tvShow => create tableName tvShow
      end
  else if String.eqb method "DELETE" && matches_item_path path then
    let id := pathParameters_id event in
    if missing id then mret id_required
    else deleteById tableName (default "" id)
  else
    mret {| statusCode := 400;
            headers := ∅;
            body := message_body "Unsupported operation" |}.

Definition handler (event : APIGatewayProxyEvent) : M APIGatewayProxyResult :=
  tableName ← getenv_TABLE_NAME;
  if missing tableName then
    mret {| statusCode := 500;
            headers := ∅;
            body := message_body "Table name is not configured" |}
  else
    try_catch
      (dispatch (default "" tableName) event)
      (λ error,
       mret {| statusCode := 500;
               headers := ∅;
               body := message_body "Internal server error" |}).
End Handler.
End TVShowsL3.

(** ** The TV shows handler, L1 variant
    (cdk/src/lambda-l3/index.ts, the handler without a controller) *)

Module TVShowsL1.
Section Handler.
Context (host : Host).

(** The chain of [if]s of the handler, inside its [try]; [tableName] is
    [process.env.TABLE_NAME] as it is, passed on with [tableName!]. *)
Definition dispatch (tableName : option string) (event : APIGatewayProxyEvent)
    : M APIGatewayProxyResult :=
  let method := httpMethod event in
  let path := path event in
  if String.eqb method "GET" && String.eqb path "/tvshows" then
    data ← send (ScanCommand tableName);
    mret {| statusCode := 200;
            headers := ∅;
            body := JSON_stringify (JArr (JObj <$> Items data)) |}
  else if String.eqb method "GET" && matches_item_path path then
    let id := pathParameters_id event in
    if missing id then
      mret {| statusCode := 400; headers := ∅; body := message_body "ID is required" |}
    else
      data ← send (GetCommand tableName (JStr (default "" id)));
      match Item data with
      | None =>
          mret {| statusCode := 404;
                  headers := ∅;
                  body := message_body "TV show not found" |}
      | Some item =>
          mret {| statusCode := 200;
                  headers := ∅;
                  body := JSON_stringify (JObj item) |}
      end
  else if String.eqb method "POST" && String.eqb path "/tvshows" then
    if missing (event_body event) then
      mret {| statusCode := 400;
              headers := ∅;
              body := message_body "Request body is required" |}
    else
      match JSON_parse host (default "" (event_body event)) with
      | inl e => throw e
      | inr tvShow =>
          id ← lift (prop host tvShow "id");
          title ← lift (prop host tvShow "title");
          if negb (truthy_value id) || negb (truthy_value title) then
            mret {| statusCode := 400;
                    headers := ∅;
                    body := message_body "ID and title are required" |}
          else
            genre ← lift (prop host tvShow "genre");
            year ← lift (prop host tvShow "year");
            rating ← lift (prop host tvShow "rating");
            t ← Date_now;
            _ ← send (PutCommand tableName (object [
                  ("id", id);
                  ("title", title);
                  ("genre", Some (or_else genre (JStr "")));
                  ("year", Some (or_else year JNull));
                  ("rating", Some (or_else rating JNull));
                  ("createdAt", Some (JStr (toISOString host t)))]));
            mret {| statusCode := 201;
                    headers := ∅;
                    body := JSON_stringify (JObj (object [
                      ("message", Some (JStr "TV show created successfully"));
                      ("id", id)])) |}
      end
  else if String.eqb method "DELETE" && matches_item_path path then
    let id := pathParameters_id event in
    if missing id then
      mret {| statusCode := 400; headers := ∅; body := message_body "ID is required" |}
    else
      _ ← send (DeleteCommand tableName (JStr (default "" id)));
      mret {| statusCode := 200;
              headers := ∅;
              body := message_body "TV show deleted successfully" |}
  else
    mret {| statusCode := 400;
            headers := ∅;
            body := message_body "Unsupported operation" |}.

Definition handler (event : APIGatewayProxyEvent) : M APIGatewayProxyResult :=
  tableName ← getenv_TABLE_NAME;
  try_catch
    (dispatch tableName event)
    (λ error,
     mret {| statusCode := 500;
             headers := ∅;
             body := message_body "Internal server error" |}).
End Handler.
End TVShowsL1.

(** ** TVShowsController on DynamoDB.DocumentClient and its handler *)

Module TVShowsDoc.
Section Handler.
Context (host : Host).

Section Controller.
(** [process.env.TABLE_NAME!]: the name is passed on as it is. *)
Context (tableName : option string).

Definition not_found : APIGatewayProxyResult :=
  {| statusCode := 404;
     headers := json_headers;
     body := message_body "TV Show not found" |}.

Definition listAll : M APIGatewayProxyResult :=
  data ← promise (ScanCommand tableName);
  mret {| statusCode := 200;
          headers := json_headers;
          body := JSON_stringify (JArr (JObj <$> Items data)) |}.

Definition getById (id : string) : M APIGatewayProxyResult :=
  data ← promise (GetCommand tableName (JStr id));
  match Item data with
  | None => mret not_found
  | Some item =>
      mret {| statusCode := 200;
              headers := json_headers;
              body := JSON_stringify (JObj item) |}
  end.

(** The [newShow] of create; [t] is the clock. *)
Definition newShow (id title genre year seasons rating : Value) (t : Z) : Entity :=
  let now := JStr (toISOString host t) in
  object [
    ("id", Some (or_else id (JStr (pretty t))));
    ("title", Some (or_else title (JStr "Untitled Show")));
    ("createdAt", Some now);
    ("updatedAt", Some now);
    ("genre", genre);
    ("year", year);
    ("seasons", seasons);
    ("rating", rating)].

Definition create (show : JSON) : M APIGatewayProxyResult :=
  id ← lift (prop host show "id");
  t ← Date_now;
  title ← lift (prop host show "title");
  genre ← lift (prop host show "genre");
  year ← lift (prop host show "year");
  seasons ← lift (prop host show "seasons");
  rating ← lift (prop host show "rating");
  let newShow := newShow id title genre year seasons rating t in
  _ ← promise (PutCommand tableName newShow);
  mret {| statusCode := 201;
          headers := json_headers;
          body := JSON_stringify (JObj newShow) |}.

(** [show.id = id; show.createdAt = ...; show.updatedAt = ...] on the
    parsed payload, in strict mode: on an object the assignments set
    its properties; on an array they add named properties, which the
    document client stores with the elements (under their indices)
    and JSON.stringify does not print; on [null], a string, a number
    or a boolean the first assignment throws.  The result is the
    item that is put and the value that is printed. *)
Definition stamp (show : JSON) (id : string) (createdAt : Value) (now : string)
    : Result (Entity * JSON) :=
  let set (m : Entity) : Entity :=
    <["updatedAt" := JStr now]> (assign "createdAt" createdAt (<["id" := JStr id]> m)) in
  match show with
  | JObj m => Ok (set m, JObj (set m))
  | JArr l => Ok (set (indexed l), JArr l)
  | _ => Throw (TypeError host Assigning show "id")
  end.

Definition update (id : string) (show : JSON) : M APIGatewayProxyResult :=
  existingData ← promise (GetCommand tableName (JStr id));
  match Item existingData with
  | None => mret not_found
  | Some item =>
      t ← Date_now;
      '(put, printed) ← lift (stamp show id (item !! "createdAt") (toISOString host t));
      _ ← promise (PutCommand tableName put);
      mret {| statusCode := 200;
              headers := json_headers;
              body := JSON_stringify printed |}
  end.

Definition delete (id : string) : M APIGatewayProxyResult :=
  existingData ← promise (GetCommand tableName (JStr id));
  match Item existingData with
  | None => mret not_found
  | Some _ =>
      _ ← promise (DeleteCommand tableName (JStr id));
      mret {| statusCode := 204;
              headers := json_headers;
              body := Raw "" |}
  end.
End Controller.

(** [JSON.parse(event.body || '{}')] *)
Definition parse_body (event : APIGatewayProxyEvent) : M JSON :=
  match JSON_parse host (text_or (event_body event) "{}") with
  | inl e => throw e
  | inr v => mret v
  end.

(** The [switch (true)] of the handler, inside its [try]. *)
Definition dispatch (event : APIGatewayProxyEvent) : M APIGatewayProxyResult :=
  tableName ← getenv_TABLE_NAME;
  let method := httpMethod event in
  let path := path event in
  let id := pathParameters_id event in
  if String.eqb method "GET" && String.eqb path "/tvshows" then
    listAll tableName
  else if String.eqb method "GET" && negb (missing id) then
    getById tableName (default "" id)
  else if String.eqb method "POST" && String.eqb path "/tvshows" then
    createData ← parse_body event;
    create tableName createData
  else if String.eqb method "PUT" && negb (missing id) then
    updateData ← parse_body event;
    update tableName (default "" id) updateData
  else if String.eqb method "DELETE" && negb (missing id) then
    delete tableName (default "" id)
  else
    mret {| statusCode := 400;
            headers := json_headers;
            body := message_body "Invalid request" |}.

Definition handler (event : APIGatewayProxyEvent) : M APIGatewayProxyResult :=
  try_catch
    (dispatch event)
    (λ error,
     mret {| statusCode := 500;
             headers := json_headers;
             body := JSON_stringify (JObj (object [
               ("message", Some (JStr "Internal server error"));
               ("error", Some (JStr (message error)))])) |}).
End Handler.
End TVShowsDoc.

(** ** A host: the builtins as Node.js has them *)

Module Node.
(** *** JSON.parse *)

Definition is_digit (c : Ascii.ascii) : bool :=
  let n := Ascii.nat_of_ascii c in ((48 <=? n) && (n <=? 57))%nat.

Definition digit_value (c : Ascii.ascii) : Z :=
  Z.of_nat (Ascii.nat_of_ascii c) - 48.

Definition is_space (c : Ascii.ascii) : bool :=
  let n := Ascii.nat_of_ascii c in
  ((n =? 32) || (n =? 9) || (n =? 10) || (n =? 13))%nat.

Fixpoint skip_space (s : string) : string :=
  match s with
  | String c rest => if is_space c then skip_space rest else s
  | EmptyString => s
  end.

(** A run of digits: its value, its length, and what follows it. *)
Fixpoint digits (s : string) (value : Z) (count : nat) : Z * nat * string :=
  match s with
  | String c rest =>
      if is_digit c then digits rest (10 * value + digit_value c) (S count)
      else (value, count, s)
  | EmptyString => (value, count, s)
  end.

Definition hex_value (c : Ascii.ascii) : option Z :=
  let n := Z.of_nat (Ascii.nat_of_ascii c) in
  if (48 <=? n) && (n <=? 57) then Some (n - 48)
  else if (65 <=? n) && (n <=? 70) then Some (n - 55)
  else if (97 <=? n) && (n <=? 102) then Some (n - 87)
  else None.

(** The code unit written [\uXXXX]. *)
Definition hex4 (h1 h2 h3 h4 : Ascii.ascii) : option Z :=
  a ← hex_value h1; b ← hex_value h2; c ← hex_value h3; d ← hex_value h4;
  Some (4096 * a + 256 * b + 16 * c + d).

Definition quote : Ascii.ascii := Ascii.ascii_of_nat 34.
Definition backslash : Ascii.ascii := Ascii.ascii_of_nat 92.

(** The characters of a string literal after its opening quote, and what
    follows the closing quote; a high and a low surrogate written one
    after the other are one character. *)
Fixpoint string_literal (s : string) : option (string * string) :=
  match s with
  | EmptyString => None
  | String c rest =>
      if Ascii.eqb c quote then Some (EmptyString, rest)
      else if Ascii.eqb c backslash then
        match rest with
        | String e rest' =>
            let escaped (b : Z) :=
              '(lit, after) ← string_literal rest'; Some (String (byte b) lit, after) in
            if Ascii.eqb e quote then escaped 34
            else if Ascii.eqb e backslash then escaped 92
            else if Ascii.eqb e "/"%char then escaped 47
            else if Ascii.eqb e "b"%char then escaped 8
            else if Ascii.eqb e "f"%char then escaped 12
            else if Ascii.eqb e "n"%char then escaped 10
            else if Ascii.eqb e "r"%char then escaped 13
            else if Ascii.eqb e "t"%char then escaped 9
            else if Ascii.eqb e "u"%char then
              match rest' with
              | String h1 (String h2 (String h3 (String h4 after_high))) =>
                  high ← hex4 h1 h2 h3 h4;
                  let alone :=
                    '(lit, after) ← string_literal after_high;
                    Some (utf8 high lit, after) in
                  if (55296 <=? high) && (high <? 56320) then
                    match after_high with
                    | String e1 (String e2 (String g1 (String g2 (String g3
                        (String g4 after_low))))) =>
                        if Ascii.eqb e1 backslash && Ascii.eqb e2 "u"%char then
                          match hex4 g1 g2 g3 g4 with
                          | Some low =>
                              if (56320 <=? low) && (low <? 57344) then
                                '(lit, after) ← string_literal after_low;
                                Some (utf8 (65536 + (high - 55296) * 1024 + (low - 56320))
                                        lit, after)
                              else alone
                          | None => alone
                          end
                        else alone
                    | _ => alone
                    end
                  else alone
              | _ => None
              end
            else None
        | EmptyString => None
        end
      else if (Ascii.nat_of_ascii c <? 32)%nat then None
      else '(lit, after) ← string_literal rest; Some (String c lit, after)
  end.

(** [n / d] rounded to the nearest integer, ties to the even one. *)
Definition round_half_even (n d : Z) : Z :=
  let q := n / d in
  let r := n mod d in
  if 2 * r <? d then q
  else if d <? 2 * r then q + 1
  else if Z.even q then q else q + 1.

(** The double nearest to a rational, ties to the even significand;
    [None] beyond the largest double. *)
Definition double (q : Q) : option Q :=
  let a := Z.abs (Qnum q) in
  let d := Z.pos (Qden q) in
  if a =? 0 then Some (Qmake 0 1) else
  let scaled e := if 0 <=? e then (a, d * 2 ^ e) else (a * 2 ^ (- e), d) in
  let e0 := Z.log2 a - Z.log2 d - 52 in
  let e1 := let '(N, D) := scaled e0 in if N <? 2 ^ 52 * D then e0 - 1 else e0 in
  let e := Z.max e1 (-1074) in
  let '(N, D) := scaled e in
  let m := round_half_even N D in
  let m := if Qnum q <? 0 then - m else m in
  if (0 <=? e) && (2 ^ 1024 <=? Z.abs m * 2 ^ e) then None
  else Some (Qred (if 0 <=? e then Qmake (m * 2 ^ e) 1
                   else Qmake m (Z.to_pos (2 ^ (- e))))).

(** The number that a literal is read as: the nearest double.  A literal
    beyond the largest double is read as Infinity, which is no rational:
    it is kept as the number it writes, which like Infinity is truthy
    and is refused by the marshaller of SDK v3 and by the service. *)
Definition number (q : Q) : Q := default q (double q).

(** A number literal [-? int frac? exp?] and the number it is read as. *)
Definition number_literal (s : string) : option (Q * string) :=
  let '(negative, s1) :=
    match s with
    | String "-"%char rest => (true, rest)
    | _ => (false, s)
    end in
  let '(int, int_len, s2) := digits s1 0 0 in
  let leading_zero :=
    match s1 with
    | String "0"%char _ => (1 <? int_len)%nat
    | _ => false
    end in
  if (int_len =? 0)%nat || leading_zero then None else
  frac ← match s2 with
         | String "."%char rest =>
             let '(f, f_len, s3) := digits rest 0 0 in
             if (f_len =? 0)%nat then None else Some (f, f_len, s3)
         | _ => Some (0, 0%nat, s2)
         end;
  let '(f, f_len, s3) := frac in
  exp ← match s3 with
        | String c rest =>
            if Ascii.eqb c "e"%char || Ascii.eqb c "E"%char then
              let '(minus, rest') :=
                match rest with
                | String "-"%char r => (true, r)
                | String "+"%char r => (false, r)
                | _ => (false, rest)
                end in
              let '(e, e_len, s4) := digits rest' 0 0 in
              if (e_len =? 0)%nat then None
              else Some (if minus then - e else e, s4)
            else Some (0, s3)
        | EmptyString => Some (0, s3)
        end;
  let '(e, s4) := exp in
  let mantissa := int * 10 ^ Z.of_nat f_len + f in
  let mantissa := if negative then - mantissa else mantissa in
  let scale := e - Z.of_nat f_len in
  let q := if 0 <=? scale then Qmake (mantissa * 10 ^ scale) 1
           else Qmake mantissa (Z.to_pos (10 ^ (- scale))) in
  Some (number q, s4).

(** A value, then the elements of an array after its bracket, then the
    members of an object after its brace; [n] bounds the calls, of
    which there are at most two for each character of the text. *)
Fixpoint value (n : nat) (s : string) : option (JSON * string) :=
  match n with
  | O => None
  | S n =>
      match skip_space s with
      | String "{"%char rest =>
          match skip_space rest with
          | String "}"%char after => Some (JObj ∅, after)
          | _ => '(m, after) ← members n rest ∅; Some (JObj m, after)
          end
      | String "["%char rest =>
          match skip_space rest with
          | String "]"%char after => Some (JArr [], after)
          | _ => '(l, after) ← elements n rest; Some (JArr l, after)
          end
      | String "t"%char (String "r"%char (String "u"%char (String "e"%char after))) =>
          Some (JBool true, after)
      | String "f"%char (String "a"%char (String "l"%char (String "s"%char (String "e"%char after)))) =>
          Some (JBool false, after)
      | String "n"%char (String "u"%char (String "l"%char (String "l"%char after))) =>
          Some (JNull, after)
      | String c rest as s' =>
          if Ascii.eqb c quote then
            '(lit, after) ← string_literal rest; Some (JStr lit, after)
          else
            '(q, after) ← number_literal s'; Some (JNum q, after)
      | EmptyString => None
      end
  end
with elements (n : nat) (s : string) : option (list JSON * string) :=
  match n with
  | O => None
  | S n =>
      '(v, after) ← value n s;
      match skip_space after with
      | String ","%char rest => '(l, after') ← elements n rest; Some (v :: l, after')
      | String "]"%char after' => Some ([v], after')
      | _ => None
      end
  end
with members (n : nat) (s : string) (m : Entity) : option (Entity * string) :=
  match n with
  | O => None
  | S n =>
      match skip_space s with
      | String c rest =>
          if Ascii.eqb c quote then
            '(k, after) ← string_literal rest;
            match skip_space after with
            | String ":"%char rest' =>
                '(v, after') ← value n rest';
                match skip_space after' with
                | String ","%char rest'' => members n rest'' (<[k := v]> m)
                | String "}"%char after'' => Some (<[k := v]> m, after'')
                | _ => None
                end
            | _ => None
            end
          else None
      | EmptyString => None
      end
  end.

(** The error of JSON.parse.  The message of the engine names the
    unexpected token and its position in the text; it is kept without
    them. *)
Definition SyntaxError : Error :=
  {| name := "SyntaxError"; message := "Unexpected token in JSON" |}.

Definition JSON_parse (text : string) : Error + JSON :=
  match value (2 * String.length text + 2) text with
  | Some (v, after) =>
      match skip_space after with
      | EmptyString => inr v
      | _ => inl SyntaxError
      end
  | None => inl SyntaxError
  end.

(** *** Date.prototype.toISOString *)

Definition pad (width : nat) (s : string) : string :=
  String.concat "" (replicate (width - String.length s) "0") +:+ s.

(** The civil date (year, month, day) of a day number counted from
    1970-01-01, in the proleptic Gregorian calendar. *)
Definition civil (day : Z) : Z * Z * Z :=
  let z := day + 719468 in
  let era := z / 146097 in
  let doe := z - era * 146097 in
  let yoe := (doe - doe / 1460 + doe / 36524 - doe / 146096) / 365 in
  let doy := doe - (365 * yoe + yoe / 4 - yoe / 100) in
  let mp := (5 * doy + 2) / 153 in
  let d := doy - (153 * mp + 2) / 5 + 1 in
  let m := if mp <? 10 then mp + 3 else mp - 9 in
  let y := yoe + era * 400 + (if m <=? 2 then 1 else 0) in
  (y, m, d).

Definition toISOString (t : Z) : string :=
  let ms := t mod 86400000 in
  let '(y, m, d) := civil (t / 86400000) in
  let year :=
    if (0 <=? y) && (y <=? 9999) then pad 4 (pretty y)
    else (if y <? 0 then "-" else "+") +:+ pad 6 (pretty (Z.abs y)) in
  year +:+ "-" +:+ pad 2 (pretty m) +:+ "-" +:+ pad 2 (pretty d) +:+ "T" +:+
  pad 2 (pretty (ms / 3600000)) +:+ ":" +:+ pad 2 (pretty (ms / 60000 mod 60)) +:+
  ":" +:+ pad 2 (pretty (ms / 1000 mod 60)) +:+ "." +:+ pad 3 (pretty (ms mod 1000)) +:+
  "Z".

(** *** Number::toString *)

(** [n] with 10^(n-1) <= [a/d] < 10^n, for a positive rational. *)
Fixpoint magnitude_up (fuel : nat) (a d n : Z) : Z :=
  match fuel with
  | O => n
  | S fuel => if a <? d * 10 ^ n then n else magnitude_up fuel a d (n + 1)
  end.

Fixpoint magnitude_down (fuel : nat) (a d n : Z) : Z :=
  match fuel with
  | O => n
  | S fuel => if d <=? a * 10 ^ (- n + 1) then n else magnitude_down fuel a d (n - 1)
  end.

Definition magnitude (a d : Z) : Z :=
  if d <=? a then magnitude_up 400 a d 1 else magnitude_down 400 a d 0.

(** [s * 10^e] *)
Definition decimal (s e : Z) : Q :=
  if 0 <=? e then Qmake (s * 10 ^ e) 1 else Qmake s (Z.to_pos (10 ^ (- e))).

Definition same_double (x y : Q) : bool :=
  match double x, double y with
  | Some a, Some b => Qeq_bool a b
  | _, _ => false
  end.

(** The digits [s] and the exponent [n] of a decimal [s * 10^(n-k)] of
    [k] digits that is read as the double [x], if there is one; of two,
    the one nearer to [x]. *)
Definition shortest_of (k : Z) (x : Q) (n : Z) : option (Z * Z) :=
  let a := Qnum x in
  let d := Z.pos (Qden x) in
  let e := n - k in
  let low := if 0 <=? e then a / (d * 10 ^ e) else a * 10 ^ (- e) / d in
  let high := low + 1 in
  let reads s := same_double (decimal s e) x in
  let nearer_low :=
    Qle_bool (Qminus x (decimal low e)) (Qminus (decimal high e) x) in
  let normal s := if s =? 10 ^ k then (10 ^ (k - 1), n + 1) else (s, n) in
  match reads low && (10 ^ (k - 1) <=? low), reads high with
  | true, true => Some (if nearer_low then (low, n) else normal high)
  | true, false => Some (low, n)
  | false, true => Some (normal high)
  | false, false => None
  end.

(** The shortest such decimal: seventeen digits always suffice. *)
Fixpoint shortest (fuel : nat) (k : Z) (x : Q) (n : Z) : Z * Z * Z :=
  match fuel with
  | O => (0, n, k)
  | S fuel =>
      match shortest_of k x n with
      | Some (s, n') => (s, n', k)
      | None => shortest fuel (k + 1) x n
      end
  end.

Definition zeros (n : Z) : string := String.concat "" (replicate (Z.to_nat n) "0").

Definition take (n : Z) (s : string) : string := String.substring 0 (Z.to_nat n) s.

Definition drop (n : Z) (s : string) : string :=
  String.substring (Z.to_nat n) (String.length s - Z.to_nat n) s.

(** A number as text: the shortest digits that are read as the same
    double, in decimal notation up to 21 integer digits and down to six
    leading zeros of the fraction, in exponent notation otherwise. *)
Definition Number_toString (q : Q) : string :=
  match double q with
  | None => if Qnum q <? 0 then "-Infinity" else "Infinity"
  | Some x =>
      if Qnum x =? 0 then "0" else
      let sign := if Qnum x <? 0 then "-" else "" in
      let x := Qmake (Z.abs (Qnum x)) (Qden x) in
      let '(s, n, k) := shortest 17 1 x (magnitude (Qnum x) (Z.pos (Qden x))) in
      let digits := pretty s in
      let exponent := (if 0 <=? n - 1 then "+" else "-") +:+ pretty (Z.abs (n - 1)) in
      sign +:+
      (if (k <=? n) && (n <=? 21) then digits +:+ zeros (n - k)
       else if (0 <? n) && (n <=? 21) then take n digits +:+ "." +:+ drop n digits
       else if (-6 <? n) && (n <=? 0) then "0." +:+ zeros (- n) +:+ digits
       else if k =? 1 then digits +:+ "e" +:+ exponent
       else take 1 digits +:+ "." +:+ drop 1 digits +:+ "e" +:+ exponent)
  end.

(** *** Engine errors as text *)

Definition typeof (v : JSON) : string :=
  match v with
  | JBool _ => "boolean"
  | JNum _ => "number"
  | JStr _ => "string"
  | JNull | JArr _ | JObj _ => "object"
  end.

Definition text (v : JSON) : string :=
  match v with
  | JBool b => if b then "true" else "false"
  | JNum q => Number_toString q
  | JStr s => s
  | JNull => "null"
  | JArr _ | JObj _ => "[object Object]"
  end.

(** The wording of V8. *)
Definition TypeError_message (a : Access) (v : JSON) (p : string) : string :=
  match a, v with
  | Reading, _ => "Cannot read properties of null (reading '" +:+ p +:+ "')"
  | Destructuring, _ =>
      "Cannot destructure property '" +:+ p +:+ "' of 'updates' as it is null."
  | Assigning, JNull => "Cannot set properties of null (setting '" +:+ p +:+ "')"
  | Assigning, _ =>
      "Cannot create property '" +:+ p +:+ "' on " +:+ typeof v +:+ " '" +:+ text v +:+ "'"
  end.
End Node.

Definition node : Host :=
  {| JSON_parse := Node.JSON_parse;
     toISOString := Node.toISOString;
     Number_toString := Node.Number_toString;
     TypeError_message := Node.TypeError_message |}.

(** * Specification *)

(** ** Worlds *)

(** The service answers every command that reaches it. *)
Definition healthy (w : World) : Prop :=
  Forall (λ r, fault r = None) (replies w).

(** Every item is stored under its own key attribute. *)
Definition consistent (t : gmap string Entity) : Prop :=
  ∀ k item, t !! k = Some item → item !! "id" = Some (JStr k).

(** ** Outcomes of a computation *)

(** [m] returns, and what it returns satisfies [P]. *)
Definition returns {A} (P : A → Prop) (m : M A) : Prop :=
  ∀ w, ∃ a w', m w = (Ok a, w') ∧ P a.

(** What [m] returns, if it does not throw, satisfies [P]. *)
Definition ensures {A} (P : A → Prop) (m : M A) : Prop :=
  ∀ w, match m w with (Ok a, _) => P a | (Throw _, _) => True end.

(** [s.includes(needle)] *)
Fixpoint includes (s needle : string) : bool :=
  match strip_prefix needle s with Some _ => true | None => false end
  || match s with
     | EmptyString => false
     | String _ rest => includes rest needle
     end.

Fixpoint colon_free (s : string) : bool :=
  match s with
  | EmptyString => true
  | String c rest => negb (Ascii.eqb c ":") && colon_free rest
  end.

(** The routing table of the actors handler: method and resource. *)
Definition Actors_routes : list (string * string) :=
  [("GET", "/actors"); ("GET", "/actors/{id}"); ("POST", "/actors");
   ("PUT", "/actors/{id}"); ("DELETE", "/actors/{id}")].

(** The requests that the L3 TV shows handler routes: by method and path. *)
Definition TVShowsL3_routed (event : APIGatewayProxyEvent) : bool :=
  let method := httpMethod event in
  let path := path event in
  String.eqb method "GET" && (String.eqb path "/tvshows" || matches_item_path path)
  || String.eqb method "POST" && String.eqb path "/tvshows"
  || String.eqb method "DELETE" && matches_item_path path.

(** The function is configured with the table name [tableName]. *)
Definition configured (tableName : string) (w : World) : Prop :=
  TABLE_NAME w = Some tableName ∧ tableName ≠ "".

(** ** The contract, operation by operation *)

Abbreviation Operation A := (A → M APIGatewayProxyResult).

Definition timestamps : list string := ["createdAt"; "updatedAt"].




(** Delete(id) answers 204 with an empty body, and GetByID(id) then
    answers 404. *)
Definition deleted_then_gone (delete : Operation string) (getById : Operation string)
    (id : string) (w : World) : Prop :=
  ∃ r1 w1 r2 w2,
    delete id w = (Ok r1, w1) ∧ statusCode r1 = 204 ∧ body r1 = Raw "" ∧
    getById id w1 = (Ok r2, w2) ∧ statusCode r2 = 404.

(** The handler answers 400 with a message that names the method and the
    path shape, and sends no command. *)
Definition rejected_by_name (handler : Operation APIGatewayProxyEvent)
    (method shape : string) (event : APIGatewayProxyEvent) (w : World) : Prop :=
  ∃ r w' m,
    handler event w = (Ok r, w') ∧ statusCode r = 400 ∧
    body r = message_body m ∧
    includes m method = true ∧ includes m shape = true ∧
    sent w' = sent w.

(** The handler answers 400. *)
Definition rejected_as_invalid (handler : Operation APIGatewayProxyEvent)
    (event : APIGatewayProxyEvent) (w : World) : Prop :=
  ∃ r w', handler event w = (Ok r, w') ∧ statusCode r = 400.

(** A 500 answer of the handler carries one of the [fixed] messages and
    nothing else. *)
Definition fault_generic (fixed : list string) (handler : Operation APIGatewayProxyEvent)
    (event : APIGatewayProxyEvent) (w : World) : Prop :=
  ∃ r w',
    handler event w = (Ok r, w') ∧
    (statusCode r = 500 → ∃ m, m ∈ fixed ∧ body r = message_body m).

(** The answer of the handler declares its body as JSON unless it is
    empty, and allows every origin. *)
Definition with_both_headers (handler : Operation APIGatewayProxyEvent)
    (event : APIGatewayProxyEvent) (w : World) : Prop :=
  ∃ r w',
    handler event w = (Ok r, w') ∧
    (body_is_empty (body r) = false →
     headers r !! "Content-Type" = Some "application/json") ∧
    is_Some (headers r !! "Access-Control-Allow-Origin").

(** ** The schema of an actor *)


Definition is_string (v : JSON) : bool :=
  match v with JStr _ => true | _ => false end.

(** An optional property [k?: T]. *)
Definition optional (E : Entity) (k : string) (T : JSON → bool) : bool :=
  match E !! k with Some v => T v | None => true end.


(** The messages of the 500 answers of the actors handler. *)
Definition Actors_fault_messages : list string :=
  ["TABLE_NAME environment variable not set";
   "Failed to retrieve actors";
   "Failed to retrieve actor";
   "Failed to create actor";
   "Failed to update actor";
   "Failed to delete actor";
   "Internal server error"].

(** The answers of the actors handler, by kind. *)
Inductive Actors_answer : APIGatewayProxyResult → Prop :=
| answer_success code v :
    code ∈ [200; 201] →
    Actors_answer {| statusCode := code; headers := cors_headers;
                     body := JSON_stringify v |}
| answer_no_content :
    Actors_answer {| statusCode := 204;
                     headers := {[ "Access-Control-Allow-Origin" := "*" ]};
                     body := Raw "" |}
| answer_client_error code m :
    code ∈ [400; 404; 409] →
    Actors_answer {| statusCode := code; headers := json_headers;
                     body := message_body m |}
| answer_fault m :
    m ∈ Actors_fault_messages →
    Actors_answer {| statusCode := 500; headers := json_headers;
                     body := message_body m |}.

(** ** Sample requests and worlds *)

Definition request (method resource path : string)
    (id : option string) (body : option string) : APIGatewayProxyEvent :=
  {| httpMethod := method; resource := resource; path := path;
     pathParameters := (λ i, {[ "id" := i ]}) <$> id;
     event_body := body |}.

(** A deployed function with an empty table named [tableName]. *)
Definition deployed (tableName : string) : World :=
  {| TABLE_NAME := Some tableName; table := ∅; clock := 1700000000000;
     replies := [ {| latency := 12; fault := None |} ]; sent := [] |}.

(** The same with the items [t] in the table. *)
Definition holding (t : gmap string Entity) (w : World) : World :=
  {| TABLE_NAME := TABLE_NAME w; table := t; clock := clock w;
     replies := replies w; sent := sent w |}.

(** The same with a service that fails the next command with [e]. *)
Definition failing (e : Error) (w : World) : World :=
  {| TABLE_NAME := TABLE_NAME w; table := table w; clock := clock w;
     replies := [ {| latency := 3; fault := Some e |} ]; sent := sent w |}.

Definition throttled : Error :=
  {| name := "ProvisionedThroughputExceededException"; message := "Rate exceeded" |}.

(** The sample actor of test-local.ts. *)
Definition sampleActor : Entity :=
  object [("id", Some (JStr "actor-1"));
          ("name", Some (JStr "Bryan Cranston"));
          ("age", Some (JNum (inject_Z 67)));
          ("nationality", Some (JStr "American"));
          ("knownFor", Some (JArr [JStr "Breaking Bad"; JStr "Malcolm in the Middle"]));
          ("isActive", Some (JBool true))].

Definition sampleShow : Entity :=
  object [("id", Some (JStr "show-1")); ("title", Some (JStr "Breaking Bad"))].

Definition storedShow : Entity :=
  object [("id", Some (JStr "show-1"));
          ("title", Some (JStr "Breaking Bad"));
          ("genre", Some (JStr "Drama"));
          ("createdAt", Some (JStr "2023-01-01T00:00:00.000Z"))].

Definition storedActor : Entity :=
  object [("id", Some (JStr "actor-1"));
          ("name", Some (JStr "Bryan Cranston"));
          ("age", Some (JNum (inject_Z 67)));
          ("createdAt", Some (JStr "2023-01-01T00:00:00.000Z"))].


(** An update that renames, and tries to move and to backdate the entity. *)
Definition sampleUpdate : Entity :=
  object [("title", Some (JStr "Better Call Saul"));
          ("name", Some (JStr "Bob Odenkirk"));
          ("id", Some (JStr "other"));
          ("createdAt", Some (JStr "1999-01-01T00:00:00.000Z"))].

(** The same with a service that answers the next command and fails the
    one after it with [e]. *)
Definition failing_second (e : Error) (w : World) : World :=
  {| TABLE_NAME := TABLE_NAME w; table := table w; clock := clock w;
     replies := [ {| latency := 12; fault := None |};
                  {| latency := 3; fault := Some e |} ];
     sent := sent w |}.

(** The sample actor with an age beyond the safe integers. *)
Definition unsafeActor : Entity :=
  <["age" := JNum (inject_Z 9007199254740992)]> sampleActor.

(** ** Further properties *)

(** A 500 answer that is not the one of the catch of the actors handler. *)
Definition own_fault (r : APIGatewayProxyResult) : Prop :=
  statusCode r = 500 → body r ≠ message_body "Internal server error".

(** The routing table of the actors handler: the operation that a request
    with a well-formed body is for. *)
Inductive Actors_routed (host : Host) (tableName : string)
    (event : APIGatewayProxyEvent) : M APIGatewayProxyResult → Prop :=
| routed_list :
    httpMethod event = "GET" → resource event = "/actors" →
    Actors_routed host tableName event (Actors.listAll tableName)
| routed_get id :
    httpMethod event = "GET" → resource event = "/actors/{id}" →
    pathParameters_id event = Some id → id ≠ "" →
    Actors_routed host tableName event (Actors.getById tableName id)
| routed_create actor :
    httpMethod event = "POST" → resource event = "/actors" →
    JSON_parse host (text_or (event_body event) "{}") = inr actor →
    Actors_routed host tableName event (Actors.create host tableName actor)
| routed_update id updates :
    httpMethod event = "PUT" → resource event = "/actors/{id}" →
    pathParameters_id event = Some id → id ≠ "" →
    JSON_parse host (text_or (event_body event) "{}") = inr updates →
    Actors_routed host tableName event (Actors.update host tableName id updates)
| routed_delete id :
    httpMethod event = "DELETE" → resource event = "/actors/{id}" →
    pathParameters_id event = Some id → id ≠ "" →
    Actors_routed host tableName event (Actors.delete tableName id).

(** * Verification *)

(** ** The monad *)

Lemma bind_Ok {A B} (m : M A) (f : A → M B) w a w' :
  m w = (Ok a, w') → (m ≫= f) w = f a w'.
Proof. intros H. unfold mbind, M_bind. by rewrite H. Qed.

Lemma bind_Throw {A B} (m : M A) (f : A → M B) w e w' :
  m w = (Throw e, w') → (m ≫= f) w = (Throw e, w').
Proof. intros H. unfold mbind, M_bind. by rewrite H. Qed.

Lemma try_Ok {A} (m : M A) h w a w' :
  m w = (Ok a, w') → try_catch m h w = (Ok a, w').
Proof. intros H. unfold try_catch. by rewrite H. Qed.

Lemma try_Throw {A} (m : M A) h w e w' :
  m w = (Throw e, w') → try_catch m h w = h e w'.
Proof. intros H. unfold try_catch. by rewrite H. Qed.

Lemma returns_ret {A} (P : A → Prop) a : P a → returns P (mret a).
Proof. intros H w. by exists a, w. Qed.

Lemma returns_ensures {A} (P : A → Prop) m : returns P m → ensures P m.
Proof. intros H w. destruct (H w) as (a & w' & -> & Ha). done. Qed.

Lemma returns_bind {A B} (Q : A → Prop) (P : B → Prop) m (f : A → M B) :
  returns Q m → (∀ a, Q a → returns P (f a)) → returns P (m ≫= f).
Proof.
  intros Hm Hf w. destruct (Hm w) as (a & w' & E & Ha).
  rewrite (bind_Ok _ _ _ _ _ E). by apply Hf.
Qed.

Lemma returns_try {A} (P : A → Prop) m h :
  ensures P m → (∀ e, returns P (h e)) → returns P (try_catch m h).
Proof.
  intros Hm Hh w. specialize (Hm w). unfold try_catch.
  destruct (m w) as [[a|e] w']; [by exists a, w' | apply Hh].
Qed.

Lemma returns_weaken {A} (P Q : A → Prop) m :
  (∀ a, P a → Q a) → returns P m → returns Q m.
Proof. intros H Hm w. destruct (Hm w) as (a & w' & E & Ha). eauto. Qed.

Lemma ensures_ret {A} (P : A → Prop) a : P a → ensures P (mret a).
Proof. intros H w. done. Qed.

Lemma ensures_throw {A} (P : A → Prop) e : ensures P (throw e).
Proof. intros w. done. Qed.

Lemma ensures_bind {A B} (P : B → Prop) (m : M A) (f : A → M B) :
  (∀ a, ensures P (f a)) → ensures P (m ≫= f).
Proof.
  intros Hf w. unfold mbind, M_bind.
  destruct (m w) as [[a|e] w']; [apply Hf | done].
Qed.

(** ** The document client *)

Lemma healthy_next w : healthy w → fault (next_reply w) = None.
Proof.
  unfold healthy, next_reply. intros H.
  destruct (replies w) as [|r rs]; [done|]. by inversion H.
Qed.

Lemma healthy_answered t c w : healthy w → healthy (answered t (logged c w)).
Proof.
  unfold healthy. simpl. intros H.
  destruct (replies w) as [|r rs]; [done|]. by inversion H.
Qed.


(** What the service does with a command that names a table. *)
Lemma serve_fault c w e :
  fault (next_reply w) = Some e →
  serve c w = (Throw e, answered (table w) (logged c w)).
Proof. intros He. unfold serve. by rewrite He. Qed.

Lemma serve_answer c w :
  is_Some (TableName_of c) → fault (next_reply w) = None →
  serve c w = ((execute c (table w)).1, answered (execute c (table w)).2 (logged c w)).
Proof.
  intros [t Ht] He. unfold serve. rewrite Ht, He. by destruct (execute c (table w)).
Qed.


(** The client of SDK v3 hands on what it marshalls ... *)
Lemma send_marshalled c w : marshalled c = true → send c w = serve c w.
Proof. intros H. unfold send. by rewrite H. Qed.

(** ... and refuses the rest before anything is sent. *)
Lemma send_refused c w :
  marshalled c = false → send c w = (Throw unsafe_number, logged c w).
Proof. intros H. unfold send. by rewrite H. Qed.

Lemma send_fault c w e :
  marshalled c = true → fault (next_reply w) = Some e →
  send c w = (Throw e, answered (table w) (logged c w)).
Proof. intros Hc He. rewrite send_marshalled by done. by apply serve_fault. Qed.

Lemma send_answer c w :
  marshalled c = true → is_Some (TableName_of c) → fault (next_reply w) = None →
  send c w = ((execute c (table w)).1, answered (execute c (table w)).2 (logged c w)).
Proof. intros Hc Ht He. rewrite send_marshalled by done. by apply serve_answer. Qed.

Lemma send_Scan tableName w :
  healthy w →
  send (ScanCommand (Some tableName)) w =
  (Ok {| Item := None; Items := (map_to_list (table w)).*2;
         Count := length (map_to_list (table w)).*2 |},
   answered (table w) (logged (ScanCommand (Some tableName)) w)).
Proof.
  intros H. rewrite send_marshalled by done.
  rewrite serve_answer by eauto using healthy_next. done.
Qed.

Lemma send_Get tableName k w :
  healthy w →
  send (GetCommand (Some tableName) (JStr k)) w =
  (Ok {| Item := table w !! k; Items := []; Count := 0 |},
   answered (table w) (logged (GetCommand (Some tableName) (JStr k)) w)).
Proof.
  intros H. rewrite send_marshalled by done.
  rewrite serve_answer by eauto using healthy_next. done.
Qed.

Lemma send_Put tableName item k w :
  healthy w → marshalls (JObj item) = true → item !! "id" = Some (JStr k) →
  send (PutCommand (Some tableName) item) w =
  (Ok no_output,
   answered (<[k := item]> (table w)) (logged (PutCommand (Some tableName) item) w)).
Proof.
  intros H Hm Hk. rewrite send_marshalled by done.
  rewrite serve_answer by eauto using healthy_next. simpl. by rewrite Hk.
Qed.

Lemma send_Delete tableName k w :
  healthy w →
  send (DeleteCommand (Some tableName) (JStr k)) w =
  (Ok no_output,
   answered (delete k (table w)) (logged (DeleteCommand (Some tableName) (JStr k)) w)).
Proof.
  intros H. rewrite send_marshalled by done.
  rewrite serve_answer by eauto using healthy_next. done.
Qed.

(** The client of SDK v2 hands on every command that names a table. *)
Lemma promise_named c w : is_Some (TableName_of c) → promise c w = serve c w.
Proof. intros [t Ht]. unfold promise. by rewrite Ht. Qed.

Lemma promise_Get tableName k w :
  healthy w →
  promise (GetCommand (Some tableName) (JStr k)) w =
  (Ok {| Item := table w !! k; Items := []; Count := 0 |},
   answered (table w) (logged (GetCommand (Some tableName) (JStr k)) w)).
Proof.
  intros H. rewrite promise_named by (by eexists).
  rewrite serve_answer by eauto using healthy_next. done.
Qed.

Lemma promise_Put tableName item k w :
  healthy w → item !! "id" = Some (JStr k) →
  promise (PutCommand (Some tableName) item) w =
  (Ok no_output,
   answered (<[k := item]> (table w)) (logged (PutCommand (Some tableName) item) w)).
Proof.
  intros H Hk. rewrite promise_named by (by eexists).
  rewrite serve_answer by eauto using healthy_next. simpl. by rewrite Hk.
Qed.

Lemma promise_Delete tableName k w :
  healthy w →
  promise (DeleteCommand (Some tableName) (JStr k)) w =
  (Ok no_output,
   answered (delete k (table w)) (logged (DeleteCommand (Some tableName) (JStr k)) w)).
Proof.
  intros H. rewrite promise_named by (by eexists).
  rewrite serve_answer by eauto using healthy_next. done.
Qed.

(** A put stores an item under its own key: consistency is kept. *)
Lemma execute_consistent c t :
  consistent t → consistent (execute c t).2.
Proof.
  intros Ht. destruct c as [tn|tn key|tn item|tn key]; simpl; try done.
  - by destruct key.
  - destruct (item !! "id") as [[| | |k| |]|] eqn:E; try done. simpl.
    intros k' item'. rewrite lookup_insert. case_decide.
    + intros [= <-]. by subst.
    + apply Ht.
  - destruct key; try done. simpl. intros k' item'.
    rewrite lookup_delete. case_decide; [done | apply Ht].
Qed.

(** ** What the client of SDK v3 marshalls *)

(** An object is marshalled when each of its properties is. *)
Lemma marshalls_JObj m :
  marshalls (JObj m) = true ↔ ∀ k v, m !! k = Some v → marshalls v = true.
Proof.
  simpl. induction m as [|k v m Hk Hfirst IH] using map_first_key_ind.
  - split; [intros _ k v; by rewrite lookup_empty | done].
  - rewrite map_fold_insert_first_key by done.
    rewrite andb_true_iff, IH. split.
    + intros [Hv Hm] k' v'. rewrite lookup_insert.
      case_decide; [by intros [= <-] | apply Hm].
    + intros H. split; [apply (H k); by rewrite lookup_insert_eq|].
      intros k' v' Hk'. apply (H k'). rewrite lookup_insert_ne; [done|].
      intros <-. by rewrite Hk in Hk'.
Qed.

Lemma marshalls_lookup m k v :
  marshalls (JObj m) = true → m !! k = Some v → marshalls v = true.
Proof. rewrite marshalls_JObj. eauto. Qed.

Lemma marshalls_refuses m k v :
  m !! k = Some v → marshalls v = false → marshalls (JObj m) = false.
Proof.
  intros Hk Hv. apply not_true_is_false. intros Hm.
  by rewrite (marshalls_lookup m k v Hm Hk) in Hv.
Qed.






(** ** Update and Delete of an absent entity *)

(** C4.  On an identifier that is absent from the table, update and
    delete of the actors controller send the lookup and nothing else, so
    no put and no delete reaches the table, which stays as it was; and
    they answer 404 (when the lookup itself is answered). *)
Theorem Actors_absent_not_written host tableName id payload w :
  table w !! id = None →
  let get := GetCommand (Some tableName) (JStr id) in
  ∃ r1 w1 r2 w2,
    Actors.update host tableName id payload w = (Ok r1, w1) ∧
    Actors.delete tableName id w = (Ok r2, w2) ∧
    (fault (next_reply w) = None → statusCode r1 = 404 ∧ statusCode r2 = 404) ∧
    table w1 = table w ∧ sent w1 = sent w ++ [get] ∧
    table w2 = table w ∧ sent w2 = sent w ++ [get].
Proof.
  intros Habsent get.
  unfold Actors.update, Actors.delete, try_catch, mbind, M_bind.
  rewrite send_marshalled by done. unfold serve.
  simpl. destruct (fault (next_reply w)) as [e|]; simpl.
  - do 4 eexists. repeat split; done.
  - rewrite Habsent. simpl. do 4 eexists. repeat split; done.
Qed.

Lemma Actors_absent_not_written_witness :
  ∃ r1 w1 r2 w2,
    Actors.update node "TVActors" "actor-1" (JObj sampleUpdate) (deployed "TVActors")
      = (Ok r1, w1) ∧
    Actors.delete "TVActors" "actor-1" (deployed "TVActors") = (Ok r2, w2) ∧
    (fault (next_reply (deployed "TVActors")) = None →
     statusCode r1 = 404 ∧ statusCode r2 = 404) ∧
    table w1 = ∅ ∧
    sent w1 = [GetCommand (Some "TVActors") (JStr "actor-1")] ∧
    table w2 = ∅ ∧
    sent w2 = [GetCommand (Some "TVActors") (JStr "actor-1")].
Proof.
  apply (Actors_absent_not_written node "TVActors" "actor-1" (JObj sampleUpdate)
           (deployed "TVActors")).
  reflexivity.
Defined.

(** ** Running an operation on a healthy service *)

Arguments next_reply : simpl never.
Arguments serve : simpl never.
Arguments send : simpl never.
Arguments promise : simpl never.
Arguments object : simpl never.
Arguments marshalls : simpl never.

Lemma lookup_assign k o (m : Entity) k' :
  assign k o m !! k' = if String.eqb k k' then o else m !! k'.
Proof.
  unfold assign. destruct (String.eqb_spec k k') as [->|Hne].
  - destruct o; [apply lookup_insert_eq | apply lookup_delete_eq].
  - destruct o; [by apply lookup_insert_ne | by apply lookup_delete_ne].
Qed.

Lemma lookup_object props k : object props !! k = last_of k props None.
Proof.
  unfold object, last_of.
  assert (∀ m : Entity,
    foldl (λ m p, assign p.1 p.2 m) m props !! k =
    foldl (λ o p, if String.eqb p.1 k then p.2 else o) (m !! k) props) as Hfold.
  { induction props as [|[k' o] props IH]; intros m; simpl; [done|].
    by rewrite IH, lookup_assign. }
  by rewrite Hfold, lookup_empty.
Qed.




Ltac run :=
  unfold try_catch, mbind, M_bind, lift, throw, Date_now, getenv_TABLE_NAME,
    mret, M_ret;
  simpl.

(** The service answers the command at the head of the goal. *)
Ltac answer :=
  first
    [ rewrite send_Get by eauto using healthy_answered
    | rewrite send_Delete by eauto using healthy_answered
    | rewrite promise_Get by eauto using healthy_answered
    | rewrite promise_Delete by eauto using healthy_answered ];
  simpl.

(** ** Delete, then GetByID *)

(** C5, as the code has it.  On an identifier present in the table, the
    actors controller answers the delete with 204 and an empty body, and
    a following getById with 404.  The L3 TV shows controller answers the
    delete with 200 and a message, and a following getById with 404. *)
Theorem Delete_then_gone tableName id w :
  healthy w → is_Some (table w !! id) →
  deleted_then_gone (Actors.delete tableName) (Actors.getById tableName) id w ∧
  ∃ r1 w1 r2 w2,
    TVShowsL3.deleteById tableName id w = (Ok r1, w1) ∧
    statusCode r1 = 200 ∧
    body r1 = message_body "TV show deleted successfully" ∧
    TVShowsL3.getById tableName id w1 = (Ok r2, w2) ∧
    statusCode r2 = 404.
Proof.
  intros H [item Hitem]. split.
  - unfold deleted_then_gone, Actors.delete, Actors.getById. run. answer.
    rewrite Hitem. simpl. answer.
    do 4 eexists. split; [reflexivity|]. simpl. answer.
    rewrite lookup_delete_eq. done.
  - unfold TVShowsL3.deleteById, TVShowsL3.getById. run. answer.
    do 4 eexists. split; [reflexivity|]. simpl. answer.
    rewrite lookup_delete_eq. done.
Qed.

Lemma Delete_then_gone_witness :
  deleted_then_gone (Actors.delete "TVActors") (Actors.getById "TVActors") "actor-1"
    (holding {[ "actor-1" := storedActor ]} (deployed "TVActors")) ∧
  ∃ r1 w1 r2 w2,
    TVShowsL3.deleteById "TVActors" "actor-1"
      (holding {[ "actor-1" := storedActor ]} (deployed "TVActors")) = (Ok r1, w1) ∧
    statusCode r1 = 200 ∧
    body r1 = message_body "TV show deleted successfully" ∧
    TVShowsL3.getById "TVActors" "actor-1" w1 = (Ok r2, w2) ∧
    statusCode r2 = 404.
Proof.
  apply (Delete_then_gone "TVActors" "actor-1"
           (holding {[ "actor-1" := storedActor ]} (deployed "TVActors"))).
  - repeat constructor.
  - exists storedActor. reflexivity.
Defined.

(** The L3 TV shows controller answers a delete with 200 and a message:
    not with 204 and an empty body. *)
Lemma Delete_then_gone_counterexample :
  ¬ deleted_then_gone
      (TVShowsL3.deleteById "TVShows-L3") (TVShowsL3.getById "TVShows-L3")
      "show-1" (holding {[ "show-1" := storedShow ]} (deployed "TVShows-L3")).
Proof.
  intros (r1 & w1 & r2 & w2 & H1 & H2 & _).
  vm_compute in H1. injection H1 as <- <-. discriminate H2.
Qed.

(** ** The operations of the actors controller, on a healthy service *)


Section Actors_runs.
Context (host : Host) (tableName : string).



(** The lookup of create on a fresh identifier, and the put that follows
    it. *)
Lemma Actors_create_lookup E id n w :
  fault (next_reply w) = None → E !! "id" = Some (JStr id) → id ≠ "" →
  E !! "name" = Some n → truthy n = true → table w !! id = None →
  let w1 := answered (table w) (logged (GetCommand (Some tableName) (JStr id)) w) in
  let item := Actors.newActor (JStr id) n (E !! "age") (E !! "nationality")
                (E !! "knownFor") (E !! "isActive") (toISOString host (clock w1)) in
  Actors.create host tableName (JObj E) w =
  match send (PutCommand (Some tableName) item) w1 with
  | (Ok _, w2) =>
      (Ok {| statusCode := 201; headers := cors_headers;
             body := JSON_stringify (JObj item) |}, w2)
  | (Throw _, w2) =>
      (Ok {| statusCode := 500; headers := json_headers;
             body := message_body "Failed to create actor" |}, w2)
  end.
Proof.
  intros H Hid Hne En Hn Hfresh w1 item. subst w1 item.
  unfold Actors.create. run. rewrite Hid, En. simpl. rewrite Hn.
  apply String.eqb_neq in Hne. rewrite Hne. simpl.
  rewrite send_answer by (first [by eexists | done]). simpl.
  rewrite Hfresh. simpl.
  match goal with
  | |- context [send ?c ?w1] => by destruct (send c w1) as [[?|?] ?]
  end.
Qed.




Lemma updatedActor_id item P now :
  Actors.updatedActor item P now !! "id" = item !! "id".
Proof.
  unfold Actors.updatedActor. rewrite lookup_insert_ne by done.
  rewrite lookup_union_r; [done|].
  rewrite lookup_delete_ne by done. apply lookup_delete_eq.
Qed.

(** The lookup of update on a stored entity, and the put that follows
    it. *)
Lemma Actors_update_lookup id P item w :
  fault (next_reply w) = None → table w !! id = Some item →
  let w1 := answered (table w) (logged (GetCommand (Some tableName) (JStr id)) w) in
  let merged := Actors.updatedActor item P (toISOString host (clock w1)) in
  Actors.update host tableName id (JObj P) w =
  match send (PutCommand (Some tableName) merged) w1 with
  | (Ok _, w2) =>
      (Ok {| statusCode := 200; headers := cors_headers;
             body := JSON_stringify (JObj merged) |}, w2)
  | (Throw _, w2) =>
      (Ok {| statusCode := 500; headers := json_headers;
             body := message_body "Failed to update actor" |}, w2)
  end.
Proof.
  intros H Hitem w1 merged. subst w1 merged.
  unfold Actors.update. run.
  rewrite send_answer by (first [by eexists | done]). simpl.
  rewrite Hitem. simpl.
  match goal with
  | |- context [send ?c ?w1] => by destruct (send c w1) as [[?|?] ?]
  end.
Qed.

End Actors_runs.

(** ** The fields of a valid actor payload *)




(** ** The operations of the L3 TV shows controller, on a healthy service *)

Section TVShowsL3_runs.
Context (host : Host) (tableName : string).



End TVShowsL3_runs.

(** ** Create, then GetByID *)




(** ** Create, twice *)




(** ** Update *)





(** ** What create keeps, and what update takes *)








(** ** Requests that match no route *)

Lemma append_nil s : "" +:+ s = s.
Proof. reflexivity. Qed.

Lemma append_cons c a s : String c a +:+ s = String c (a +:+ s).
Proof. reflexivity. Qed.

Lemma strip_prefix_app p s : strip_prefix p (p +:+ s) = Some s.
Proof.
  induction p as [|c p IH]; [done|].
  rewrite append_cons. simpl. by rewrite Ascii.eqb_refl.
Qed.

Lemma includes_unfold s needle :
  includes s needle =
  (match strip_prefix needle s with Some _ => true | None => false end
   || match s with
      | EmptyString => false
      | String _ rest => includes rest needle
      end).
Proof. by destruct s. Qed.

Lemma strip_prefix_self s : strip_prefix s s = Some "".
Proof. induction s as [|c s IH]; simpl; [done|]. by rewrite Ascii.eqb_refl. Qed.

Lemma includes_self s : includes s s = true.
Proof. by rewrite includes_unfold, strip_prefix_self. Qed.

Lemma includes_prefix s t : includes (s +:+ t) s = true.
Proof. by rewrite includes_unfold, strip_prefix_app. Qed.

Lemma includes_skip a t s : includes t s = true → includes (a +:+ t) s = true.
Proof.
  intros H. induction a as [|c a IH]; [done|].
  rewrite append_cons, includes_unfold, IH. apply orb_true_r.
Qed.

Lemma colon_free_app a b : colon_free (a +:+ ":" +:+ b) = false.
Proof.
  induction a as [|c a IH]; [done|].
  rewrite append_cons. simpl. rewrite IH. apply andb_false_r.
Qed.

(** A route names its method and its resource: they are what stands
    before and after its only colon. *)
Lemma route_inj m r m' r' :
  colon_free m' = true → colon_free r' = true →
  m +:+ ":" +:+ r = m' +:+ ":" +:+ r' → m = m' ∧ r = r'.
Proof.
  intros Hm' Hr'. revert m. induction m' as [|c' m' IH]; intros m Heq.
  - destruct m as [|c m]; rewrite ?append_cons, ?append_nil in Heq.
    + by injection Heq as <-.
    + injection Heq as -> <-.
      by rewrite (colon_free_app m r : colon_free (m +:+ String ":" r) = false) in Hr'.
  - simpl in Hm'. apply andb_prop in Hm' as [Hc' Hm'].
    destruct m as [|c m]; rewrite ?append_cons, ?append_nil in Heq.
    + injection Heq as <- _. done.
    + injection Heq as -> Heq. destruct (IH Hm' m Heq) as [-> ->]. done.
Qed.

Lemma route_miss m r m' r' :
  colon_free m' = true → colon_free r' = true → (m, r) ≠ (m', r') →
  String.eqb (m +:+ ":" +:+ r) (m' +:+ ":" +:+ r') = false.
Proof.
  intros Hm' Hr' Hne. apply String.eqb_neq. intros Heq.
  destruct (route_inj m r m' r' Hm' Hr' Heq) as [-> ->]. done.
Qed.

(** C6, as the code has it.  When the function is configured, the actors
    handler answers every request whose method and resource are not in
    its routing table with 400 and the message "Unsupported operation: "
    followed by the method, a space and the resource, and leaves the
    world as it is: no command is sent.  The L3 TV shows handler answers
    every request that it does not route with 400 and the message
    "Unsupported operation", which names neither, and leaves the world
    as it is. *)
Theorem Unmatched_rejected host tableName event w :
  configured tableName w →
  ((httpMethod event, resource event) ∉ Actors_routes →
   Actors.handler host event w =
     (Ok {| statusCode := 400; headers := json_headers;
            body := message_body ("Unsupported operation: " +:+ httpMethod event +:+
                                  " " +:+ resource event) |}, w)) ∧
  (TVShowsL3_routed event = false →
   TVShowsL3.handler host event w =
     (Ok {| statusCode := 400; headers := ∅;
            body := message_body "Unsupported operation" |}, w)).
Proof.
  intros [Henv Hname].
  assert (missing (TABLE_NAME w) = false) as Hconf.
  { rewrite Henv. simpl. by apply String.eqb_neq. }
  split.
  - intros Hroute. unfold Actors.handler, Actors.dispatch. run.
    rewrite Hconf.
    change "GET:/actors" with ("GET" +:+ ":" +:+ "/actors").
    change "GET:/actors/{id}" with ("GET" +:+ ":" +:+ "/actors/{id}").
    change "POST:/actors" with ("POST" +:+ ":" +:+ "/actors").
    change "PUT:/actors/{id}" with ("PUT" +:+ ":" +:+ "/actors/{id}").
    change "DELETE:/actors/{id}" with ("DELETE" +:+ ":" +:+ "/actors/{id}").
    rewrite !route_miss by
      (first [reflexivity | intros Heq; apply Hroute; rewrite Heq;
                            unfold Actors_routes; set_solver]).
    reflexivity.
  - intros Hrouted. unfold TVShowsL3_routed in Hrouted.
    apply orb_false_elim in Hrouted as [Hrouted Hdelete].
    apply orb_false_elim in Hrouted as [Hget Hpost].
    unfold TVShowsL3.handler, TVShowsL3.dispatch. run. rewrite Hconf.
    rewrite Hpost, Hdelete.
    destruct (String.eqb (httpMethod event) "GET"); simpl in *; [|done].
    apply orb_false_elim in Hget as [-> ->]. done.
Qed.

Lemma Unmatched_rejected_witness :
  Actors.handler node (request "PATCH" "/actors" "/actors" None None)
    (deployed "TVActors") =
    (Ok {| statusCode := 400; headers := json_headers;
           body := message_body "Unsupported operation: PATCH /actors" |},
     deployed "TVActors") ∧
  TVShowsL3.handler node (request "PATCH" "/actors" "/actors" None None)
    (deployed "TVActors") =
    (Ok {| statusCode := 400; headers := ∅;
           body := message_body "Unsupported operation" |}, deployed "TVActors").
Proof.
  destruct (Unmatched_rejected node "TVActors"
              (request "PATCH" "/actors" "/actors" None None) (deployed "TVActors"))
    as [Hactors Hshows].
  - split; [reflexivity | discriminate].
  - split.
    + apply Hactors. simpl. intros Hin.
      repeat (apply elem_of_cons in Hin as [Hin|Hin]; [discriminate Hin|]).
      by apply elem_of_nil in Hin.
    + apply Hshows. vm_compute. reflexivity.
Defined.

(** The message of the L3 TV shows handler names neither the method nor
    the path of the request. *)
Lemma Unmatched_rejected_counterexample :
  ¬ rejected_by_name (TVShowsL3.handler node) "PATCH" "/tvshows"
      (request "PATCH" "/tvshows" "/tvshows" None None) (deployed "TVShows-L3").
Proof.
  intros (r & w' & m & H1 & _ & Hbody & Hmethod & _).
  vm_compute in H1. injection H1 as <- <-.
  apply (f_equal (λ b, match b with
                       | JSON_stringify (JObj o) => o !! "message"
                       | _ => None
                       end)) in Hbody.
  vm_compute in Hbody. injection Hbody as <-.
  vm_compute in Hmethod. discriminate Hmethod.
Qed.

(** ** Bodies that are not JSON *)

(** C7, as the code has it.  When the function is configured, the actors
    handler answers a POST on the collection, and a PUT on an item with
    its identifier, whose body is not JSON with 500 and the message
    "Internal server error": the SyntaxError is caught by the handler
    and nothing of it is in the answer; no command is sent. *)
Theorem Malformed_body_fault host tableName event w e :
  configured tableName w →
  JSON_parse host (text_or (event_body event) "{}") = inl e →
  (httpMethod event, resource event) = ("POST", "/actors") ∨
  (httpMethod event, resource event) = ("PUT", "/actors/{id}") ∧
    missing (pathParameters_id event) = false →
  Actors.handler host event w =
  (Ok {| statusCode := 500; headers := json_headers;
         body := message_body "Internal server error" |}, w).
Proof.
  intros [Henv Hname] Hparse Hroute.
  unfold Actors.handler, Actors.dispatch, Actors.parse_body. run.
  rewrite Henv. simpl. apply String.eqb_neq in Hname. rewrite Hname. simpl.
  rewrite Hparse.
  destruct Hroute as [[= -> ->]|[[= -> ->] ->]]; reflexivity.
Qed.

Lemma Malformed_body_fault_witness :
  Actors.handler node (request "POST" "/actors" "/actors" None (Some "{"))
    (deployed "TVActors") =
  (Ok {| statusCode := 500; headers := json_headers;
         body := message_body "Internal server error" |}, deployed "TVActors").
Proof.
  apply (Malformed_body_fault node "TVActors"
           (request "POST" "/actors" "/actors" None (Some "{")) (deployed "TVActors")
           Node.SyntaxError).
  - split; [reflexivity | discriminate].
  - vm_compute. reflexivity.
  - left. reflexivity.
Defined.

(** A POST whose body is an unclosed brace is answered with 500. *)
Lemma Malformed_body_counterexample :
  ¬ rejected_as_invalid (Actors.handler node)
      (request "POST" "/actors" "/actors" None (Some "{")) (deployed "TVActors").
Proof.
  intros (r & w' & H1 & Hcode).
  vm_compute in H1. injection H1 as <- <-. discriminate Hcode.
Qed.

(** ** The answers of the handlers *)

(** Every path of an operation ends in an answer of the stated kind. *)
Ltac answers finish :=
  repeat match goal with
    | |- returns _ (try_catch _ _) => apply returns_try
    | |- returns _ (mret _) => apply returns_ret
    | |- ensures _ (mret _) => apply ensures_ret
    | |- ensures _ (throw _) => apply ensures_throw
    | |- ensures _ (_ ≫= _) => apply ensures_bind; intros
    | |- ensures _ (match ?x with _ => _ end) => destruct x
    | |- returns _ (match ?x with _ => _ end) => destruct x
    | |- ∀ _, _ => intros
    | |- _ => finish
    end.

Ltac an_Actors_answer :=
  match goal with
  | |- Actors_answer {| statusCode := _; headers := cors_headers; body := _ |} =>
      apply answer_success
  | |- Actors_answer {| statusCode := 204; headers := _; body := _ |} =>
      apply answer_no_content
  | |- Actors_answer {| statusCode := 500; headers := _; body := _ |} =>
      apply answer_fault
  | |- Actors_answer _ => apply answer_client_error
  end;
  repeat constructor.

Section Actors_answers.
Context (host : Host) (tableName : string).

Lemma Actors_listAll_answer : returns Actors_answer (Actors.listAll tableName).
Proof. unfold Actors.listAll. answers an_Actors_answer. Qed.

Lemma Actors_getById_answer id : returns Actors_answer (Actors.getById tableName id).
Proof. unfold Actors.getById. answers an_Actors_answer. Qed.

Lemma Actors_create_answer actor :
  returns Actors_answer (Actors.create host tableName actor).
Proof. unfold Actors.create. answers an_Actors_answer. Qed.

Lemma Actors_update_answer id updates :
  returns Actors_answer (Actors.update host tableName id updates).
Proof. unfold Actors.update. answers an_Actors_answer. Qed.

Lemma Actors_delete_answer id : returns Actors_answer (Actors.delete tableName id).
Proof. unfold Actors.delete. answers an_Actors_answer. Qed.

Lemma Actors_dispatch_answer event :
  ensures Actors_answer (Actors.dispatch host tableName event).
Proof.
  unfold Actors.dispatch, Actors.id_required, Actors.parse_body.
  answers ltac:(first
    [ an_Actors_answer
    | apply returns_ensures;
      first [ apply Actors_listAll_answer | apply Actors_getById_answer
            | apply Actors_create_answer | apply Actors_update_answer
            | apply Actors_delete_answer ] ]).
Qed.
End Actors_answers.

Lemma Actors_handler_answer host event :
  returns Actors_answer (Actors.handler host event).
Proof.
  unfold Actors.handler.
  apply (returns_bind (λ _, True)); [by intros w; eexists _, _|].
  intros tableName _. destruct (missing tableName).
  - apply returns_ret. an_Actors_answer.
  - apply returns_try; [apply Actors_dispatch_answer|].
    intros e. apply returns_ret. an_Actors_answer.
Qed.

Lemma TVShowsL3_handler_bare host event :
  returns (λ r, headers r = ∅) (TVShowsL3.handler host event).
Proof.
  unfold TVShowsL3.handler.
  apply (returns_bind (λ _, True)); [by intros w; eexists _, _|].
  intros tableName _. destruct (missing tableName).
  - by apply returns_ret.
  - apply returns_try; [|intros e; by apply returns_ret].
    unfold TVShowsL3.dispatch, TVShowsL3.listAll, TVShowsL3.getById,
      TVShowsL3.create, TVShowsL3.deleteById, TVShowsL3.id_required.
    answers ltac:(reflexivity).
Qed.

Lemma TVShowsDoc_dispatch_no_fault host event :
  ensures (λ r, statusCode r ≠ 500) (TVShowsDoc.dispatch host event).
Proof.
  unfold TVShowsDoc.dispatch, TVShowsDoc.listAll, TVShowsDoc.getById,
    TVShowsDoc.create, TVShowsDoc.update, TVShowsDoc.delete,
    TVShowsDoc.not_found, TVShowsDoc.parse_body.
  answers ltac:(discriminate).
Qed.

(** ** Faults *)

(** C8, as the code has it.  The actors handler answers every request,
    and a 500 answer of it carries one of seven fixed messages and
    nothing else, whatever went wrong.  The TV shows handler on the
    document client answers every request too; a 500 answer of it comes
    from its catch clause alone, and carries, beside the message
    "Internal server error", the message of the error that was thrown,
    in a field "error". *)
Theorem Fault_answers host event w event' w' :
  fault_generic Actors_fault_messages (Actors.handler host) event w ∧
  ∃ r w1,
    TVShowsDoc.handler host event' w' = (Ok r, w1) ∧
    (statusCode r = 500 →
     ∃ e,
       TVShowsDoc.dispatch host event' w' = (Throw e, w1) ∧
       body r = JSON_stringify (JObj (object [
         ("message", Some (JStr "Internal server error"));
         ("error", Some (JStr (message e)))]))).
Proof.
  split.
  - destruct (Actors_handler_answer host event w) as (ra & wa & Ha & Hanswer).
    exists ra, wa. split; [done|]. intros Hfault.
    destruct Hanswer as [code v Hin| |code m Hin|m Hin]; simpl in Hfault.
    + subst code. repeat (apply elem_of_cons in Hin as [Hin|Hin]; [discriminate Hin|]).
      by apply elem_of_nil in Hin.
    + discriminate Hfault.
    + subst code. repeat (apply elem_of_cons in Hin as [Hin|Hin]; [discriminate Hin|]).
      by apply elem_of_nil in Hin.
    + by exists m.
  - unfold TVShowsDoc.handler, try_catch.
    pose proof (TVShowsDoc_dispatch_no_fault host event' w') as Hno.
    destruct (TVShowsDoc.dispatch host event' w') as [[rd|e] wd].
    + exists rd, wd. split; [done|]. intros Hcode. done.
    + do 2 eexists. split; [reflexivity|]. intros _. by exists e.
Qed.

(** A throttled scan: the actors handler answers 500 with the message of
    listAll, the TV shows handler on the document client with the
    message of the service in the field "error". *)
Lemma Fault_answers_witness :
  ∃ r w1 r' w1',
    Actors.handler node (request "GET" "/actors" "/actors" None None)
      (failing throttled (deployed "TVActors")) = (Ok r, w1) ∧
    statusCode r = 500 ∧
    (∃ m, m ∈ Actors_fault_messages ∧ body r = message_body m) ∧
    TVShowsDoc.handler node (request "GET" "/tvshows" "/tvshows" None None)
      (failing throttled (deployed "TVShows")) = (Ok r', w1') ∧
    statusCode r' = 500 ∧
    ∃ e,
      TVShowsDoc.dispatch node (request "GET" "/tvshows" "/tvshows" None None)
        (failing throttled (deployed "TVShows")) = (Throw e, w1') ∧
      body r' = JSON_stringify (JObj (object [
        ("message", Some (JStr "Internal server error"));
        ("error", Some (JStr (message e)))])).
Proof.
  destruct (Fault_answers node
              (request "GET" "/actors" "/actors" None None)
              (failing throttled (deployed "TVActors"))
              (request "GET" "/tvshows" "/tvshows" None None)
              (failing throttled (deployed "TVShows")))
    as [(r & w1 & Hrun & Hfault) (r' & w1' & Hrun' & Hfault')].
  exists r, w1, r', w1'.
  assert (statusCode r = 500) as Hcode
    by (vm_compute in Hrun; by injection Hrun as <- <-).
  assert (statusCode r' = 500) as Hcode'
    by (vm_compute in Hrun'; by injection Hrun' as <- <-).
  repeat split; [exact Hrun | exact Hcode | exact (Hfault Hcode)
                | exact Hrun' | exact Hcode' | exact (Hfault' Hcode') ].
Defined.

(** When the service throttles the scan, the TV shows handler on the
    document client answers with a body that has a field "error": it is
    none of any fixed list of messages. *)
Lemma Fault_answers_counterexample :
  ¬ ∃ fixed,
      fault_generic fixed (TVShowsDoc.handler node)
        (request "GET" "/tvshows" "/tvshows" None None)
        (failing throttled (deployed "TVShows")).
Proof.
  intros (fixed & r & w' & H1 & Hfixed).
  vm_compute in H1. injection H1 as <- <-.
  destruct (Hfixed eq_refl) as (m & _ & Hbody).
  apply (f_equal (λ b, match b with
                       | JSON_stringify (JObj o) => o !! "error"
                       | _ => None
                       end)) in Hbody.
  vm_compute in Hbody. discriminate Hbody.
Qed.

(** ** Headers *)

(** C9, as the code has it.  Every answer of the actors handler has the
    header Content-Type: application/json unless its body is empty, and
    has the header Access-Control-Allow-Origin exactly when its status
    is 200, 201 or 204.  Every answer of the L3 TV shows handler is
    without headers. *)
Theorem Answer_headers host event w :
  (∃ r w',
     Actors.handler host event w = (Ok r, w') ∧
     (body_is_empty (body r) = false →
      headers r !! "Content-Type" = Some "application/json") ∧
     (is_Some (headers r !! "Access-Control-Allow-Origin") ↔
      statusCode r ∈ [200; 201; 204])) ∧
  (∃ r w', TVShowsL3.handler host event w = (Ok r, w') ∧ headers r = ∅).
Proof.
  split.
  - destruct (Actors_handler_answer host event w) as (r & w' & Hrun & Hanswer).
    exists r, w'. split; [done|].
    assert (∀ code : Z, code ∈ [400; 404; 409] ∨ code = 500 →
            ¬ code ∈ [200; 201; 204]) as Herror.
    { intros code [Hin| ->] Hok;
        repeat (apply elem_of_cons in Hok as [Hok|Hok];
                [subst; try discriminate;
                 repeat (apply elem_of_cons in Hin as [Hin|Hin]; [discriminate Hin|]);
                 by apply elem_of_nil in Hin|]);
        by apply elem_of_nil in Hok. }
    destruct Hanswer as [code v Hin| |code m Hin|m Hin]; simpl.
    + split; [done|]. split; [|by eexists].
      intros _. repeat (apply elem_of_cons in Hin as [->|Hin]); try set_solver.
    + split; [done|]. split; [set_solver | by eexists].
    + split; [done|]. split; [by intros [? [=]] | by intros ?%Herror; [|left]].
    + split; [done|]. split; [by intros [? [=]] | by intros ?%Herror; [|right]].
  - apply TVShowsL3_handler_bare.
Qed.

(** The 404 of the actors handler has no Access-Control-Allow-Origin. *)
Lemma Answer_headers_counterexample :
  ¬ with_both_headers (Actors.handler node)
      (request "GET" "/actors/{id}" "/actors/actor-1" (Some "actor-1") None)
      (deployed "TVActors").
Proof.
  intros (r & w' & H1 & _ & Hcors).
  vm_compute in H1. injection H1 as <- <-.
  destruct Hcors as [x Hx]. vm_compute in Hx. discriminate Hx.
Qed.

(** * Further properties of the handlers *)

(** ** More on the actors controller *)

(** X1.  On a service that answers, listAll answers 200 with every
    stored entity exactly once and their number as count, after one scan
    that leaves the table as it was. *)
Theorem Actors_listAll_lists tableName w :
  healthy w →
  ∃ r w' items,
    Actors.listAll tableName w = (Ok r, w') ∧
    statusCode r = 200 ∧
    body r = JSON_stringify (JObj (object [
      ("actors", Some (JArr (JObj <$> items)));
      ("count", Some (JNum (inject_Z (Z.of_nat (length items)))))])) ∧
    length items = size (table w) ∧
    (∀ item, item ∈ items ↔ ∃ k, table w !! k = Some item) ∧
    table w' = table w ∧
    sent w' = sent w ++ [ScanCommand (Some tableName)].
Proof.
  intros H. unfold Actors.listAll. run. rewrite send_Scan by done. simpl.
  do 3 eexists. split; [reflexivity|]. split; [done|]. split; [reflexivity|].
  split; [by rewrite length_fmap, length_map_to_list|].
  split; [|done].
  intros item. rewrite list_elem_of_fmap. split.
  - intros ([k item'] & -> & Hin). exists k. by apply elem_of_map_to_list.
  - intros [k Hk]. exists (k, item). split; [done|]. by apply elem_of_map_to_list.
Qed.

Lemma Actors_listAll_lists_witness :
  ∃ r w' items,
    Actors.listAll "TVActors"
      (holding {[ "actor-1" := storedActor ]} (deployed "TVActors")) = (Ok r, w') ∧
    statusCode r = 200 ∧
    body r = JSON_stringify (JObj (object [
      ("actors", Some (JArr (JObj <$> items)));
      ("count", Some (JNum (inject_Z (Z.of_nat (length items)))))])) ∧
    length items =
      size (table (holding {[ "actor-1" := storedActor ]} (deployed "TVActors"))) ∧
    (∀ item, item ∈ items ↔
       ∃ k, table (holding {[ "actor-1" := storedActor ]} (deployed "TVActors")) !! k
            = Some item) ∧
    table w' = table (holding {[ "actor-1" := storedActor ]} (deployed "TVActors")) ∧
    sent w' = sent (holding {[ "actor-1" := storedActor ]} (deployed "TVActors"))
              ++ [ScanCommand (Some "TVActors")].
Proof.
  apply (Actors_listAll_lists "TVActors"
           (holding {[ "actor-1" := storedActor ]} (deployed "TVActors"))).
  repeat constructor.
Defined.

(** X2.  When the service fails the first command of an operation of the
    actors controller, the operation answers 500 with its own fixed
    message, and the table is as it was.  The first command of create
    carries the identifier of the payload as it is: when this is a
    number that the client does not marshall, the command does not
    reach the service, and create answers the same. *)
Theorem Actors_first_fault host tableName id updates E key n w e :
  fault (next_reply w) = Some e →
  E !! "id" = Some key → E !! "name" = Some n → truthy key && truthy n = true →
  let failed m c :=
    (Ok {| statusCode := 500; headers := json_headers; body := message_body m |},
     answered (table w) (logged c w)) in
  Actors.listAll tableName w =
    failed "Failed to retrieve actors" (ScanCommand (Some tableName)) ∧
  Actors.getById tableName id w =
    failed "Failed to retrieve actor" (GetCommand (Some tableName) (JStr id)) ∧
  Actors.create host tableName (JObj E) w =
    (if marshalls key
     then failed "Failed to create actor" (GetCommand (Some tableName) key)
     else (Ok {| statusCode := 500; headers := json_headers;
                 body := message_body "Failed to create actor" |},
           logged (GetCommand (Some tableName) key) w)) ∧
  Actors.update host tableName id updates w =
    failed "Failed to update actor" (GetCommand (Some tableName) (JStr id)) ∧
  Actors.delete tableName id w =
    failed "Failed to delete actor" (GetCommand (Some tableName) (JStr id)).
Proof.
  intros He Hid Hn Ht failed. subst failed.
  unfold Actors.listAll, Actors.getById, Actors.create, Actors.update, Actors.delete.
  run. rewrite Hid, Hn. simpl. rewrite Ht.
  rewrite !(send_fault _ w e) by done.
  destruct (marshalls key) eqn:Hkey.
  - by rewrite (send_fault _ w e) by done.
  - by rewrite send_refused by done.
Qed.

Lemma Actors_first_fault_witness :
  Actors.listAll "TVActors" (failing throttled (deployed "TVActors")) =
    (Ok {| statusCode := 500; headers := json_headers;
           body := message_body "Failed to retrieve actors" |},
     answered (table (failing throttled (deployed "TVActors")))
       (logged (ScanCommand (Some "TVActors")) (failing throttled (deployed "TVActors")))) ∧
  Actors.getById "TVActors" "actor-1" (failing throttled (deployed "TVActors")) =
    (Ok {| statusCode := 500; headers := json_headers;
           body := message_body "Failed to retrieve actor" |},
     answered (table (failing throttled (deployed "TVActors")))
       (logged (GetCommand (Some "TVActors") (JStr "actor-1"))
          (failing throttled (deployed "TVActors")))) ∧
  Actors.create node "TVActors" (JObj sampleActor) (failing throttled (deployed "TVActors")) =
    (Ok {| statusCode := 500; headers := json_headers;
           body := message_body "Failed to create actor" |},
     answered (table (failing throttled (deployed "TVActors")))
       (logged (GetCommand (Some "TVActors") (JStr "actor-1"))
          (failing throttled (deployed "TVActors")))) ∧
  Actors.update node "TVActors" "actor-1" (JObj sampleUpdate)
    (failing throttled (deployed "TVActors")) =
    (Ok {| statusCode := 500; headers := json_headers;
           body := message_body "Failed to update actor" |},
     answered (table (failing throttled (deployed "TVActors")))
       (logged (GetCommand (Some "TVActors") (JStr "actor-1"))
          (failing throttled (deployed "TVActors")))) ∧
  Actors.delete "TVActors" "actor-1" (failing throttled (deployed "TVActors")) =
    (Ok {| statusCode := 500; headers := json_headers;
           body := message_body "Failed to delete actor" |},
     answered (table (failing throttled (deployed "TVActors")))
       (logged (GetCommand (Some "TVActors") (JStr "actor-1"))
          (failing throttled (deployed "TVActors")))).
Proof.
  apply (Actors_first_fault node "TVActors" "actor-1" (JObj sampleUpdate) sampleActor
           (JStr "actor-1") (JStr "Bryan Cranston")
           (failing throttled (deployed "TVActors")) throttled).
  - reflexivity.
  - vm_compute. reflexivity.
  - vm_compute. reflexivity.
  - reflexivity.
Defined.

(** X3.  getById only reads: in every world it sends one get and leaves
    the table as it was; when the get is answered, it answers 200 with
    the stored entity as it is, or 404 when there is none. *)
Theorem Actors_getById_reads tableName id w :
  ∃ r w',
    Actors.getById tableName id w = (Ok r, w') ∧
    table w' = table w ∧
    sent w' = sent w ++ [GetCommand (Some tableName) (JStr id)] ∧
    (fault (next_reply w) = None →
     match table w !! id with
     | Some item => statusCode r = 200 ∧ body r = JSON_stringify (JObj item)
     | None => statusCode r = 404
     end).
Proof.
  unfold Actors.getById. run. rewrite send_marshalled by done.
  unfold serve. simpl.
  destruct (fault (next_reply w)) as [e|]; simpl.
  - by do 2 eexists.
  - destruct (table w !! id); do 2 eexists; repeat split; done.
Qed.

(** X4.  create rejects a payload without a truthy id or name with 400,
    before any command is sent; on [null] it answers 500, also without
    any command. *)
Theorem Actors_create_requires host tableName actor w :
  actor ≠ JNull →
  (∀ E, actor = JObj E → truthy_value (E !! "id") && truthy_value (E !! "name") = false) →
  Actors.create host tableName actor w =
    (Ok {| statusCode := 400; headers := json_headers;
           body := message_body "id and name are required fields" |}, w) ∧
  Actors.create host tableName JNull w =
    (Ok {| statusCode := 500; headers := json_headers;
           body := message_body "Failed to create actor" |}, w).
Proof.
  intros Hnull Hfalsy. split; [|done].
  unfold Actors.create. run.
  destruct actor as [| | | | |E]; try done.
  specialize (Hfalsy E eq_refl). simpl.
  destruct (E !! "id") as [idv|]; [|done].
  destruct (E !! "name") as [n|]; [|done].
  simpl in Hfalsy. by rewrite Hfalsy.
Qed.

Lemma Actors_create_requires_witness :
  Actors.create node "TVActors" (JObj sampleShow) (deployed "TVActors") =
    (Ok {| statusCode := 400; headers := json_headers;
           body := message_body "id and name are required fields" |},
     deployed "TVActors") ∧
  Actors.create node "TVActors" JNull (deployed "TVActors") =
    (Ok {| statusCode := 500; headers := json_headers;
           body := message_body "Failed to create actor" |}, deployed "TVActors").
Proof.
  apply (Actors_create_requires node "TVActors" (JObj sampleShow) (deployed "TVActors")).
  - discriminate.
  - intros E [= <-]. vm_compute. reflexivity.
Defined.

(** X5.  When the lookup of create is answered and its put fails, create
    answers 500 and nothing is written: the table is as it was. *)
Theorem Actors_create_put_fault host tableName E id n w e :
  E !! "id" = Some (JStr id) → id ≠ "" → E !! "name" = Some n → truthy n = true →
  table w !! id = None →
  fault (next_reply w) = None →
  fault (next_reply
           (answered (table w) (logged (GetCommand (Some tableName) (JStr id)) w)))
    = Some e →
  ∃ w',
    Actors.create host tableName (JObj E) w =
      (Ok {| statusCode := 500; headers := json_headers;
             body := message_body "Failed to create actor" |}, w') ∧
    table w' = table w.
Proof.
  intros Hid Hne Hn Ht Hfresh Hget Hput.
  rewrite (Actors_create_lookup host tableName E id n w) by done.
  match goal with
  | |- context [send ?c ?w1] => destruct (marshalled c) eqn:Hitem
  end.
  - rewrite (send_fault _ _ e) by done. by eexists.
  - rewrite send_refused by done. by eexists.
Qed.

Lemma Actors_create_put_fault_witness :
  ∃ w',
    Actors.create node "TVActors" (JObj sampleActor)
      (failing_second throttled (deployed "TVActors")) =
      (Ok {| statusCode := 500; headers := json_headers;
             body := message_body "Failed to create actor" |}, w') ∧
    table w' = table (failing_second throttled (deployed "TVActors")).
Proof.
  apply (Actors_create_put_fault node "TVActors" sampleActor "actor-1"
           (JStr "Bryan Cranston") (failing_second throttled (deployed "TVActors"))
           throttled).
  - vm_compute. reflexivity.
  - discriminate.
  - vm_compute. reflexivity.
  - reflexivity.
  - reflexivity.
  - reflexivity.
  - reflexivity.
Defined.

(** X6.  An update and a delete of the actors controller touch one key:
    every other entity of the table stays as it was; after the update
    the key is still present, after the delete it is gone. *)
Theorem Actors_writes_one_key host tableName id P stored k w :
  healthy w → consistent (table w) → table w !! id = Some stored → k ≠ id →
  ∃ r1 w1 r2 w2,
    Actors.update host tableName id (JObj P) w = (Ok r1, w1) ∧
    table w1 !! k = table w !! k ∧ is_Some (table w1 !! id) ∧
    Actors.delete tableName id w = (Ok r2, w2) ∧
    table w2 !! k = table w !! k ∧ table w2 !! id = None.
Proof.
  intros H Hcons Hstored Hk. pose proof (Hcons _ _ Hstored) as Hid.
  assert (∃ r1 w1, Actors.update host tableName id (JObj P) w = (Ok r1, w1) ∧
                   table w1 !! k = table w !! k ∧ is_Some (table w1 !! id))
    as (r1 & w1 & Hupdate & Hother & Hkey).
  { rewrite (Actors_update_lookup host tableName id P stored w)
      by eauto using healthy_next.
    match goal with
    | |- context [send ?c ?w1] => destruct (marshalled c) eqn:Hitem
    end.
    - erewrite send_Put;
        [|by apply healthy_answered|done|by rewrite updatedActor_id].
      do 2 eexists. split; [reflexivity|]. simpl.
      split; [by rewrite lookup_insert_ne|].
      rewrite lookup_insert_eq. by eexists.
    - rewrite send_refused by done.
      do 2 eexists. split; [reflexivity|]. simpl. split; [done|]. by eexists. }
  exists r1, w1. do 2 eexists.
  split; [done|]. split; [done|]. split; [done|].
  unfold Actors.delete. run. answer. rewrite Hstored. simpl. answer.
  split; [reflexivity|]. simpl.
  split; [by rewrite lookup_delete_ne | apply lookup_delete_eq].
Qed.

Lemma Actors_writes_one_key_witness :
  ∃ r1 w1 r2 w2,
    Actors.update node "TVActors" "actor-1" (JObj sampleUpdate)
      (holding {[ "actor-1" := storedActor ]} (deployed "TVActors")) = (Ok r1, w1) ∧
    table w1 !! "actor-2" =
      table (holding {[ "actor-1" := storedActor ]} (deployed "TVActors")) !! "actor-2" ∧
    is_Some (table w1 !! "actor-1") ∧
    Actors.delete "TVActors" "actor-1"
      (holding {[ "actor-1" := storedActor ]} (deployed "TVActors")) = (Ok r2, w2) ∧
    table w2 !! "actor-2" =
      table (holding {[ "actor-1" := storedActor ]} (deployed "TVActors")) !! "actor-2" ∧
    table w2 !! "actor-1" = None.
Proof.
  apply (Actors_writes_one_key node "TVActors" "actor-1" sampleUpdate storedActor
           "actor-2" (holding {[ "actor-1" := storedActor ]} (deployed "TVActors"))).
  - repeat constructor.
  - intros k item. simpl. rewrite lookup_singleton. case_decide; [|done].
    intros [= <-]. subst k. vm_compute. reflexivity.
  - reflexivity.
  - discriminate.
Defined.



(** X8.  Without a table name in the environment (unset or empty), the
    actors handler and the L3 TV shows handler answer every request with
    500 before they route it: nothing is parsed and no command is sent. *)
Theorem Unconfigured_fault host event w :
  missing (TABLE_NAME w) = true →
  Actors.handler host event w =
    (Ok {| statusCode := 500; headers := json_headers;
           body := message_body "TABLE_NAME environment variable not set" |}, w) ∧
  TVShowsL3.handler host event w =
    (Ok {| statusCode := 500; headers := ∅;
           body := message_body "Table name is not configured" |}, w).
Proof.
  intros Hmiss. unfold Actors.handler, TVShowsL3.handler. run. by rewrite Hmiss.
Qed.

Lemma Unconfigured_fault_witness :
  Actors.handler node (request "GET" "/actors" "/actors" None None)
    {| TABLE_NAME := None; table := ∅; clock := 0; replies := []; sent := [] |} =
    (Ok {| statusCode := 500; headers := json_headers;
           body := message_body "TABLE_NAME environment variable not set" |},
     {| TABLE_NAME := None; table := ∅; clock := 0; replies := []; sent := [] |}) ∧
  TVShowsL3.handler node (request "GET" "/actors" "/actors" None None)
    {| TABLE_NAME := None; table := ∅; clock := 0; replies := []; sent := [] |} =
    (Ok {| statusCode := 500; headers := ∅;
           body := message_body "Table name is not configured" |},
     {| TABLE_NAME := None; table := ∅; clock := 0; replies := []; sent := [] |}).
Proof.
  apply (Unconfigured_fault node (request "GET" "/actors" "/actors" None None)
           {| TABLE_NAME := None; table := ∅; clock := 0; replies := []; sent := [] |}).
  reflexivity.
Defined.

(** X9.  On its three item routes, the actors handler answers a request
    without an id path parameter (none, or an empty one) with 400 "Actor
    ID is required": the body of a PUT is not parsed and no command is
    sent. *)
Theorem Actors_id_required host tableName event w :
  configured tableName w →
  resource event = "/actors/{id}" →
  httpMethod event ∈ ["GET"; "PUT"; "DELETE"] →
  missing (pathParameters_id event) = true →
  Actors.handler host event w =
    (Ok {| statusCode := 400; headers := json_headers;
           body := message_body "Actor ID is required" |}, w).
Proof.
  intros [Henv Hname] Hres Hmethod Hid.
  unfold Actors.handler, Actors.dispatch, Actors.id_required. run.
  rewrite Henv. simpl. apply String.eqb_neq in Hname. rewrite Hname. simpl.
  rewrite Hres, Hid.
  repeat (apply elem_of_cons in Hmethod as [->|Hmethod]); [done..|].
  by apply elem_of_nil in Hmethod.
Qed.

Lemma Actors_id_required_witness :
  Actors.handler node (request "PUT" "/actors/{id}" "/actors/" None (Some "{"))
    (deployed "TVActors") =
    (Ok {| statusCode := 400; headers := json_headers;
           body := message_body "Actor ID is required" |}, deployed "TVActors").
Proof.
  apply (Actors_id_required node "TVActors"
           (request "PUT" "/actors/{id}" "/actors/" None (Some "{")) (deployed "TVActors")).
  - split; [reflexivity | discriminate].
  - reflexivity.
  - simpl. set_solver.
  - reflexivity.
Defined.

Lemma message_body_inj a b : message_body a = message_body b → a = b.
Proof.
  intros H.
  apply (f_equal (λ b, match b with
                       | JSON_stringify (JObj o) => o !! "message"
                       | _ => None
                       end)) in H.
  unfold message_body in H. rewrite !lookup_singleton_eq in H. by injection H.
Qed.

(** Closes a goal on an answer that is not the 500 of the handler's catch. *)
Ltac not_internal :=
  match goal with
  | Hc : statusCode _ = 500 |- _ =>
      simpl in Hc;
      first [ discriminate Hc
            | let Hb := fresh in
              simpl; intros Hb; apply message_body_inj in Hb; discriminate Hb ]
  end.

Section Actors_faults.
Context (host : Host) (tableName : string).

Lemma Actors_listAll_own : returns own_fault (Actors.listAll tableName).
Proof. unfold own_fault, Actors.listAll. answers ltac:(idtac; not_internal). Qed.

Lemma Actors_getById_own id : returns own_fault (Actors.getById tableName id).
Proof. unfold own_fault, Actors.getById. answers ltac:(idtac; not_internal). Qed.

Lemma Actors_create_own actor : returns own_fault (Actors.create host tableName actor).
Proof. unfold own_fault, Actors.create. answers ltac:(idtac; not_internal). Qed.

Lemma Actors_update_own id updates :
  returns own_fault (Actors.update host tableName id updates).
Proof. unfold own_fault, Actors.update. answers ltac:(idtac; not_internal). Qed.

Lemma Actors_delete_own id : returns own_fault (Actors.delete tableName id).
Proof. unfold own_fault, Actors.delete. answers ltac:(idtac; not_internal). Qed.

(** What the switch of the handler answers or throws: an answer that is
    not the one of the handler's catch, or the error of JSON.parse, thrown
    before any command. *)
Lemma Actors_dispatch_outcome event w :
  match Actors.dispatch host tableName event w with
  | (Ok r, _) => own_fault r
  | (Throw e, w') =>
      JSON_parse host (text_or (event_body event) "{}") = inl e ∧ w' = w
  end.
Proof.
  unfold own_fault, Actors.dispatch, Actors.id_required, Actors.parse_body.
  repeat match goal with
    | |- context [if ?b then _ else _] =>
        lazymatch b with
        | String.eqb _ _ => destruct b
        | missing _ => destruct b
        end
    end;
    try (simpl; intros Hc; discriminate Hc);
    try match goal with
      | |- context [Actors.listAll ?t ?w] =>
          destruct (Actors_listAll_own w) as (? & ? & -> & ?); done
      | |- context [Actors.getById ?t ?i ?w] =>
          destruct (Actors_getById_own i w) as (? & ? & -> & ?); done
      | |- context [Actors.delete ?t ?i ?w] =>
          destruct (Actors_delete_own i w) as (? & ? & -> & ?); done
      end;
    unfold mbind, M_bind, throw, mret, M_ret;
    destruct (JSON_parse host (text_or (event_body event) "{}")) as [e|v]; try done.
  - destruct (Actors_create_own v w) as (? & ? & -> & ?); done.
  - destruct (Actors_update_own (default "" (pathParameters_id event)) v w)
      as (? & ? & -> & ?); done.
Qed.
End Actors_faults.

(** X10.  When the function is configured, the actors handler answers
    500 "Internal server error" only when JSON.parse threw on the body:
    no fault of the store and no payload produces this answer; and no
    command was sent. *)
Theorem Actors_internal_error host tableName event w r w' :
  configured tableName w →
  Actors.handler host event w = (Ok r, w') →
  statusCode r = 500 → body r = message_body "Internal server error" →
  ∃ e, JSON_parse host (text_or (event_body event) "{}") = inl e ∧ w' = w.
Proof.
  intros [Henv Hname] Hrun Hcode Hbody. revert Hrun.
  unfold Actors.handler. run. rewrite Henv. simpl.
  apply String.eqb_neq in Hname. rewrite Hname. simpl.
  pose proof (Actors_dispatch_outcome host tableName event w) as Hout.
  destruct (Actors.dispatch host tableName event w) as [[rd|e] wd].
  - intros [= <- <-]. by destruct (Hout Hcode).
  - intros [= <- <-]. destruct Hout as [Hparse ->]. by exists e.
Qed.

Lemma Actors_internal_error_witness :
  ∃ r w',
    Actors.handler node (request "POST" "/actors" "/actors" None (Some "{"))
      (deployed "TVActors") = (Ok r, w') ∧
    statusCode r = 500 ∧ body r = message_body "Internal server error" ∧
    ∃ e, JSON_parse node (text_or (Some "{") "{}") = inl e ∧ w' = deployed "TVActors".
Proof.
  do 2 eexists. split; [vm_compute; reflexivity|].
  split; [reflexivity|]. split; [vm_compute; reflexivity|].
  eapply (Actors_internal_error node "TVActors"
            (request "POST" "/actors" "/actors" None (Some "{")) (deployed "TVActors")).
  - split; [reflexivity | discriminate].
  - vm_compute. reflexivity.
  - reflexivity.
  - vm_compute. reflexivity.
Defined.

(** X19.  When the function is configured, the actors handler answers a
    request of its routing table exactly as the operation of the table
    does, on the identifier of the path and the parsed body: its own
    catch never changes the answer of an operation. *)
Theorem Actors_handler_routes host tableName event operation w :
  configured tableName w →
  Actors_routed host tableName event operation →
  Actors.handler host event w = operation w.
Proof.
  intros [Henv Hname] Hrouted.
  assert (∃ r w', operation w = (Ok r, w')) as (r & w' & Hop).
  { destruct Hrouted;
      [ destruct (Actors_listAll_answer tableName w) as (r & w' & ? & _)
      | destruct (Actors_getById_answer tableName id w) as (r & w' & ? & _)
      | destruct (Actors_create_answer host tableName actor w) as (r & w' & ? & _)
      | destruct (Actors_update_answer host tableName id updates w) as (r & w' & ? & _)
      | destruct (Actors_delete_answer tableName id w) as (r & w' & ? & _) ];
      eauto. }
  rewrite Hop. unfold Actors.handler. run. rewrite Henv. simpl.
  apply String.eqb_neq in Hname. rewrite Hname. simpl.
  assert (Actors.dispatch host tableName event w = operation w) as ->.
  { unfold Actors.dispatch, Actors.parse_body.
    destruct Hrouted as [Hm Hr|id Hm Hr Hid Hne|actor Hm Hr Hp
                        |id updates Hm Hr Hid Hne Hp|id Hm Hr Hid Hne];
      rewrite Hm, Hr; try rewrite Hid; try rewrite Hp;
      try (apply String.eqb_neq in Hne; simpl; rewrite Hne);
      reflexivity. }
  by rewrite Hop.
Qed.

Lemma Actors_handler_routes_witness :
  Actors.handler node
    (request "GET" "/actors/{id}" "/actors/actor-1" (Some "actor-1") None)
    (holding {[ "actor-1" := storedActor ]} (deployed "TVActors")) =
  Actors.getById "TVActors" "actor-1"
    (holding {[ "actor-1" := storedActor ]} (deployed "TVActors")).
Proof.
  apply (Actors_handler_routes node "TVActors"
           (request "GET" "/actors/{id}" "/actors/actor-1" (Some "actor-1") None)
           (Actors.getById "TVActors" "actor-1")
           (holding {[ "actor-1" := storedActor ]} (deployed "TVActors"))).
  - split; [reflexivity | discriminate].
  - apply routed_get; [reflexivity | reflexivity | reflexivity | discriminate].
Defined.

(** ** Numbers that the client does not marshall *)

(** A value that the client does not marshall is truthy, and is not [null]. *)
Lemma unmarshalled_truthy v : marshalls v = false → truthy v = true.
Proof.
  destruct v as [| |q| | |]; try done. unfold marshalls, safe_number. simpl.
  intros Hq. apply negb_true_iff, Z.eqb_neq. intros Hzero.
  rewrite Hzero in Hq. simpl in Hq. apply Z.leb_gt in Hq. lia.
Qed.

(** X20.  On a service that answers, create of the actors controller,
    for a fresh identifier and a payload one of whose declared fields
    holds a number that is not between the safe integers, answers 500
    and writes nothing: the client throws on the put, after the lookup,
    and the put does not reach the service. *)
Theorem Actors_create_unsafe host tableName E id f v w :
  healthy w →
  E !! "id" = Some (JStr id) → id ≠ "" → truthy_value (E !! "name") = true →
  table w !! id = None →
  f ∈ ["name"; "age"; "nationality"; "knownFor"; "isActive"] →
  E !! f = Some v → marshalls v = false →
  ∃ w' item,
    Actors.create host tableName (JObj E) w =
      (Ok {| statusCode := 500; headers := json_headers;
             body := message_body "Failed to create actor" |}, w') ∧
    table w' = table w ∧
    sent w' = sent w ++ [GetCommand (Some tableName) (JStr id);
                         PutCommand (Some tableName) item] ∧
    replies w' = tail (replies w).
Proof.
  intros H Hid Hne Hname Hfresh Hf Hv Hm.
  destruct (E !! "name") as [n|] eqn:En; [|done]. simpl in Hname.
  rewrite (Actors_create_lookup host tableName E id n w) by eauto using healthy_next.
  rewrite send_refused.
  - do 2 eexists. split; [reflexivity|]. simpl.
    split; [done|]. split; [by rewrite <- app_assoc | done].
  - simpl. apply (marshalls_refuses _ f v); [|done].
    pose proof (unmarshalled_truthy v Hm) as Ht.
    unfold Actors.newActor. rewrite lookup_object.
    repeat (apply elem_of_cons in Hf as [->|Hf]); [..|by apply elem_of_nil in Hf];
      simpl.
    + congruence.
    + done.
    + done.
    + rewrite Hv. simpl. by rewrite Ht.
    + rewrite Hv. by destruct v.
Qed.

Lemma Actors_create_unsafe_witness :
  ∃ w' item,
    Actors.create node "TVActors" (JObj unsafeActor) (deployed "TVActors") =
      (Ok {| statusCode := 500; headers := json_headers;
             body := message_body "Failed to create actor" |}, w') ∧
    table w' = table (deployed "TVActors") ∧
    sent w' = sent (deployed "TVActors") ++
              [GetCommand (Some "TVActors") (JStr "actor-1");
               PutCommand (Some "TVActors") item] ∧
    replies w' = tail (replies (deployed "TVActors")).
Proof.
  apply (Actors_create_unsafe node "TVActors" unsafeActor "actor-1" "age"
           (JNum (inject_Z 9007199254740992)) (deployed "TVActors")).
  - repeat constructor.
  - vm_compute. reflexivity.
  - discriminate.
  - vm_compute. reflexivity.
  - reflexivity.
  - apply elem_of_cons. right. apply elem_of_cons. by left.
  - vm_compute. reflexivity.
  - vm_compute. reflexivity.
Defined.

(** X21.  On a service that answers, update of the actors controller,
    for a stored entity and a payload one of whose fields, other than
    the identifier and the timestamps, holds a number that is not
    between the safe integers, answers 500 and writes nothing: the
    client throws on the put, after the lookup, and the put does not
    reach the service. *)
Theorem Actors_update_unsafe host tableName id P stored k v w :
  healthy w → table w !! id = Some stored →
  P !! k = Some v → k ∉ "id" :: timestamps → marshalls v = false →
  ∃ w' item,
    Actors.update host tableName id (JObj P) w =
      (Ok {| statusCode := 500; headers := json_headers;
             body := message_body "Failed to update actor" |}, w') ∧
    table w' = table w ∧
    sent w' = sent w ++ [GetCommand (Some tableName) (JStr id);
                         PutCommand (Some tableName) item] ∧
    replies w' = tail (replies w).
Proof.
  intros H Hstored HP Hk Hm.
  assert (k ≠ "id" ∧ k ≠ "createdAt" ∧ k ≠ "updatedAt") as (? & ? & ?).
  { repeat split; intros ->; apply Hk; unfold timestamps; set_solver. }
  rewrite (Actors_update_lookup host tableName id P stored w) by eauto using healthy_next.
  rewrite send_refused.
  - do 2 eexists. split; [reflexivity|]. simpl.
    split; [done|]. split; [by rewrite <- app_assoc | done].
  - simpl. apply (marshalls_refuses _ k v); [|done].
    unfold Actors.updatedActor. rewrite lookup_insert_ne by done.
    apply lookup_union_Some_l. by rewrite !lookup_delete_ne.
Qed.

Lemma Actors_update_unsafe_witness :
  ∃ w' item,
    Actors.update node "TVActors" "actor-1"
      (JObj {[ "age" := JNum (inject_Z 9007199254740992) ]})
      (holding {[ "actor-1" := storedActor ]} (deployed "TVActors")) =
      (Ok {| statusCode := 500; headers := json_headers;
             body := message_body "Failed to update actor" |}, w') ∧
    table w' = table (holding {[ "actor-1" := storedActor ]} (deployed "TVActors")) ∧
    sent w' = sent (holding {[ "actor-1" := storedActor ]} (deployed "TVActors")) ++
              [GetCommand (Some "TVActors") (JStr "actor-1");
               PutCommand (Some "TVActors") item] ∧
    replies w' = tail (replies (holding {[ "actor-1" := storedActor ]} (deployed "TVActors"))).
Proof.
  apply (Actors_update_unsafe node "TVActors" "actor-1"
           {[ "age" := JNum (inject_Z 9007199254740992) ]} storedActor "age"
           (JNum (inject_Z 9007199254740992))
           (holding {[ "actor-1" := storedActor ]} (deployed "TVActors"))).
  - repeat constructor.
  - reflexivity.
  - reflexivity.
  - intros Hin.
    repeat (apply elem_of_cons in Hin as [Hin|Hin]; [discriminate Hin|]).
    by apply elem_of_nil in Hin.
  - vm_compute. reflexivity.
Defined.

(** ** More on the TV shows handlers *)

(** X11.  create of the L3 controller rejects a payload without a truthy
    id or title with 400, before any command is sent. *)
Theorem TVShowsL3_create_requires host tableName tvShow w :
  tvShow ≠ JNull →
  (∀ S, tvShow = JObj S →
        truthy_value (S !! "id") && truthy_value (S !! "title") = false) →
  TVShowsL3.create host tableName tvShow w =
    (Ok {| statusCode := 400; headers := ∅;
           body := message_body "ID and title are required" |}, w).
Proof.
  intros Hnull Hfalsy. unfold TVShowsL3.create. run.
  destruct tvShow as [| | | | |S]; try done.
  specialize (Hfalsy S eq_refl). simpl.
  destruct (truthy_value (S !! "id")), (truthy_value (S !! "title")); done.
Qed.

Lemma TVShowsL3_create_requires_witness :
  TVShowsL3.create node "TVShows-L3" (JObj sampleActor) (deployed "TVShows-L3") =
    (Ok {| statusCode := 400; headers := ∅;
           body := message_body "ID and title are required" |}, deployed "TVShows-L3").
Proof.
  apply (TVShowsL3_create_requires node "TVShows-L3" (JObj sampleActor)
           (deployed "TVShows-L3")).
  - discriminate.
  - intros S [= <-]. vm_compute. reflexivity.
Defined.

(** X12.  The L3 handler answers a POST on the collection that has no
    body, or an empty one, with 400 "Request body is required": nothing
    is parsed and no command is sent. *)
Theorem TVShowsL3_body_required host tableName event w :
  configured tableName w →
  httpMethod event = "POST" → path event = "/tvshows" →
  missing (event_body event) = true →
  TVShowsL3.handler host event w =
    (Ok {| statusCode := 400; headers := ∅;
           body := message_body "Request body is required" |}, w).
Proof.
  intros [Henv Hname] Hmethod Hpath Hbody.
  unfold TVShowsL3.handler, TVShowsL3.dispatch. run.
  rewrite Henv. simpl. apply String.eqb_neq in Hname. rewrite Hname. simpl.
  by rewrite Hmethod, Hpath, Hbody.
Qed.

Lemma TVShowsL3_body_required_witness :
  TVShowsL3.handler node (request "POST" "/tvshows" "/tvshows" None (Some ""))
    (deployed "TVShows-L3") =
    (Ok {| statusCode := 400; headers := ∅;
           body := message_body "Request body is required" |}, deployed "TVShows-L3").
Proof.
  apply (TVShowsL3_body_required node "TVShows-L3"
           (request "POST" "/tvshows" "/tvshows" None (Some "")) (deployed "TVShows-L3")).
  - split; [reflexivity | discriminate].
  - reflexivity.
  - reflexivity.
  - reflexivity.
Defined.

(** X13.  The L3 and L1 handlers have no update: every PUT request is
    answered with 400 "Unsupported operation" and no command is sent,
    whatever its path, parameters and body. *)
Theorem TVShows_no_update host tableName event w :
  configured tableName w → httpMethod event = "PUT" →
  TVShowsL3.handler host event w =
    (Ok {| statusCode := 400; headers := ∅;
           body := message_body "Unsupported operation" |}, w) ∧
  TVShowsL1.handler host event w =
    (Ok {| statusCode := 400; headers := ∅;
           body := message_body "Unsupported operation" |}, w).
Proof.
  intros [Henv Hname] Hmethod.
  unfold TVShowsL3.handler, TVShowsL3.dispatch, TVShowsL1.handler, TVShowsL1.dispatch.
  run. rewrite Henv. simpl. apply String.eqb_neq in Hname. rewrite Hname. simpl.
  by rewrite Hmethod.
Qed.

Lemma TVShows_no_update_witness :
  TVShowsL3.handler node
    (request "PUT" "/tvshows/{id}" "/tvshows/show-1" (Some "show-1") (Some "{}"))
    (deployed "TVShows-L3") =
    (Ok {| statusCode := 400; headers := ∅;
           body := message_body "Unsupported operation" |}, deployed "TVShows-L3") ∧
  TVShowsL1.handler node
    (request "PUT" "/tvshows/{id}" "/tvshows/show-1" (Some "show-1") (Some "{}"))
    (deployed "TVShows-L3") =
    (Ok {| statusCode := 400; headers := ∅;
           body := message_body "Unsupported operation" |}, deployed "TVShows-L3").
Proof.
  apply (TVShows_no_update node "TVShows-L3"
           (request "PUT" "/tvshows/{id}" "/tvshows/show-1" (Some "show-1") (Some "{}"))
           (deployed "TVShows-L3")).
  - split; [reflexivity | discriminate].
  - reflexivity.
Defined.

(** X14.  deleteById of the L3 controller looks nothing up: on a service
    that answers it sends one delete and answers 200 whether the entity
    exists or not; afterwards the key is absent and every other entity
    is as it was. *)
Theorem TVShowsL3_delete_unconditional tableName id k w :
  healthy w → k ≠ id →
  ∃ r w',
    TVShowsL3.deleteById tableName id w = (Ok r, w') ∧
    statusCode r = 200 ∧
    sent w' = sent w ++ [DeleteCommand (Some tableName) (JStr id)] ∧
    table w' !! id = None ∧
    table w' !! k = table w !! k.
Proof.
  intros H Hk. unfold TVShowsL3.deleteById. run. answer.
  do 2 eexists. split; [reflexivity|]. simpl.
  split; [done|]. split; [done|].
  split; [apply lookup_delete_eq | by apply lookup_delete_ne].
Qed.

Lemma TVShowsL3_delete_unconditional_witness :
  ∃ r w',
    TVShowsL3.deleteById "TVShows-L3" "show-1" (deployed "TVShows-L3") = (Ok r, w') ∧
    statusCode r = 200 ∧
    sent w' = sent (deployed "TVShows-L3")
              ++ [DeleteCommand (Some "TVShows-L3") (JStr "show-1")] ∧
    table w' !! "show-1" = None ∧
    table w' !! "show-2" = table (deployed "TVShows-L3") !! "show-2".
Proof.
  apply (TVShowsL3_delete_unconditional "TVShows-L3" "show-1" "show-2"
           (deployed "TVShows-L3")).
  - repeat constructor.
  - discriminate.
Defined.

Lemma TVShowsL1_dispatch_as_L3 host tableName event :
  TVShowsL1.dispatch host (Some tableName) event =
  TVShowsL3.dispatch host tableName event.
Proof. reflexivity. Qed.

(** X15.  When the function is configured, the L1 handler, written
    without a controller, answers every request as the L3 handler does
    and leaves the same world. *)
Theorem TVShowsL1_as_L3 host tableName event w :
  configured tableName w →
  TVShowsL1.handler host event w = TVShowsL3.handler host event w.
Proof.
  intros [Henv Hname].
  unfold TVShowsL1.handler, TVShowsL3.handler. run.
  rewrite Henv. simpl. apply String.eqb_neq in Hname. rewrite Hname. simpl.
  by rewrite TVShowsL1_dispatch_as_L3.
Qed.

Lemma TVShowsL1_as_L3_witness :
  TVShowsL1.handler node (request "GET" "/tvshows" "/tvshows" None None)
    (holding {[ "show-1" := storedShow ]} (deployed "TVShows-L3")) =
  TVShowsL3.handler node (request "GET" "/tvshows" "/tvshows" None None)
    (holding {[ "show-1" := storedShow ]} (deployed "TVShows-L3")).
Proof.
  apply (TVShowsL1_as_L3 node "TVShows-L3"
           (request "GET" "/tvshows" "/tvshows" None None)
           (holding {[ "show-1" := storedShow ]} (deployed "TVShows-L3"))).
  split; [reflexivity | discriminate].
Defined.

(** ** The item paths *)

Lemma strip_prefix_Some p s r : strip_prefix p s = Some r → s = p +:+ r.
Proof.
  revert s. induction p as [|a p IH]; intros s H; simpl in H.
  - by injection H as ->.
  - destruct s as [|b s]; [done|].
    destruct (Ascii.eqb_spec a b) as [->|]; [|done].
    by rewrite (IH s H).
Qed.

(** X16.  The item routes of the TV shows handlers match a path exactly
    when "/tvshows/" followed by a letter, a digit, an underscore or a
    hyphen occurs somewhere in it: the pattern is not anchored, so what
    stands before and after does not matter. *)
Theorem matches_item_path_spec path :
  matches_item_path path = true ↔
  ∃ before c after,
    path = before +:+ "/tvshows/" +:+ String c after ∧ item_char c = true.
Proof.
  split.
  - induction path as [|a path IH].
    + simpl. done.
    + intros H.
      change (matches_item_path (String a path)) with
        (match strip_prefix "/tvshows/" (String a path) with
         | Some (String c _) => item_char c
         | _ => false
         end || matches_item_path path) in H.
      apply orb_prop in H as [H|H].
      * destruct (strip_prefix "/tvshows/" (String a path)) as [[|c rest]|] eqn:E;
          try done.
        apply strip_prefix_Some in E. by exists "", c, rest.
      * destruct (IH H) as (before & c & after & -> & Hc).
        by exists (String a before), c, after.
  - intros (before & c & after & -> & Hc).
    induction before as [|a before IH].
    + change ("" +:+ "/tvshows/" +:+ String c after)
        with ("/tvshows/" +:+ String c after).
      simpl. rewrite Hc. done.
    + change (String a before +:+ "/tvshows/" +:+ String c after)
        with (String a (before +:+ "/tvshows/" +:+ String c after)).
      change (matches_item_path (String a ?s)) with
        (match strip_prefix "/tvshows/" (String a s) with
         | Some (String c _) => item_char c
         | _ => false
         end || matches_item_path s).
      rewrite IH. apply orb_true_r.
Qed.

(** ** More on the TV shows controller on the document client *)

(** X17.  create of the TV shows controller on the document client
    validates nothing: for every object payload whose id, if any, is a
    string, it answers 201 with the entity it has put.  The entity is
    stored under the id of the payload, or under the clock reading in
    decimal when the payload has no id or an empty one; its title is
    that of the payload or "Untitled Show"; createdAt and updatedAt are
    the instant of the call.  Whatever was stored under this key is
    replaced. *)
Theorem TVShowsDoc_create_defaults host tableName S w :
  healthy w →
  optional S "id" is_string = true →
  ∃ r w' key entity,
    TVShowsDoc.create host (Some tableName) (JObj S) w = (Ok r, w') ∧
    statusCode r = 201 ∧
    body r = JSON_stringify (JObj entity) ∧
    table w' = <[key := entity]> (table w) ∧
    entity !! "id" = Some (JStr key) ∧
    (if truthy_value (S !! "id") then S !! "id" = Some (JStr key)
     else key = pretty (clock w)) ∧
    entity !! "title" = Some (or_else (S !! "title") (JStr "Untitled Show")) ∧
    entity !! "createdAt" = Some (JStr (toISOString host (clock w))) ∧
    entity !! "updatedAt" = Some (JStr (toISOString host (clock w))).
Proof.
  intros H Hid. unfold optional in Hid.
  assert (∃ key, or_else (S !! "id") (JStr (pretty (clock w))) = JStr key ∧
                 if truthy_value (S !! "id") then S !! "id" = Some (JStr key)
                 else key = pretty (clock w)) as (key & Hkey & Hcase).
  { destruct (S !! "id") as [[| | |s| |]|]; try done; simpl.
    - destruct (negb (String.eqb s "")); eauto.
    - eauto. }
  unfold TVShowsDoc.create. run.
  erewrite promise_Put; [|done|].
  - do 4 eexists. split; [reflexivity|]. simpl.
    split; [done|]. split; [reflexivity|]. split; [reflexivity|].
    unfold TVShowsDoc.newShow. rewrite !lookup_object. simpl.
    rewrite Hkey. done.
  - unfold TVShowsDoc.newShow. rewrite lookup_object. simpl. by rewrite Hkey.
Qed.

Lemma TVShowsDoc_create_defaults_witness :
  ∃ r w' key entity,
    TVShowsDoc.create node (Some "TVShows") (JObj ∅) (deployed "TVShows") = (Ok r, w') ∧
    statusCode r = 201 ∧
    body r = JSON_stringify (JObj entity) ∧
    table w' = <[key := entity]> (table (deployed "TVShows")) ∧
    entity !! "id" = Some (JStr key) ∧
    (if truthy_value ((∅ : Entity) !! "id") then (∅ : Entity) !! "id" = Some (JStr key)
     else key = pretty (clock (deployed "TVShows"))) ∧
    entity !! "title" =
      Some (or_else ((∅ : Entity) !! "title") (JStr "Untitled Show")) ∧
    entity !! "createdAt" =
      Some (JStr (toISOString node (clock (deployed "TVShows")))) ∧
    entity !! "updatedAt" =
      Some (JStr (toISOString node (clock (deployed "TVShows")))).
Proof.
  apply (TVShowsDoc_create_defaults node "TVShows" ∅ (deployed "TVShows")).
  - repeat constructor.
  - reflexivity.
Defined.

(** X18.  On a service that answers, delete of the TV shows controller
    on the document client answers 404 and sends no delete when the
    entity is absent; when it is present it sends the delete and answers
    204 with an empty body that is still declared as JSON, and the key
    is absent afterwards. *)
Theorem TVShowsDoc_delete_checks tableName id w :
  healthy w →
  ∃ r w',
    TVShowsDoc.delete (Some tableName) id w = (Ok r, w') ∧
    match table w !! id with
    | None =>
        statusCode r = 404 ∧ table w' = table w ∧
        sent w' = sent w ++ [GetCommand (Some tableName) (JStr id)]
    | Some _ =>
        statusCode r = 204 ∧ body r = Raw "" ∧
        headers r !! "Content-Type" = Some "application/json" ∧
        table w' = delete id (table w) ∧
        sent w' = sent w ++ [GetCommand (Some tableName) (JStr id);
                             DeleteCommand (Some tableName) (JStr id)]
    end.
Proof.
  intros H. unfold TVShowsDoc.delete. run. answer.
  destruct (table w !! id) as [item|]; simpl.
  - answer. do 2 eexists. split; [reflexivity|]. simpl.
    repeat split; try done. by rewrite <- app_assoc.
  - by do 2 eexists.
Qed.

Lemma TVShowsDoc_delete_checks_witness :
  ∃ r w',
    TVShowsDoc.delete (Some "TVShows") "show-1"
      (holding {[ "show-1" := storedShow ]} (deployed "TVShows")) = (Ok r, w') ∧
    match table (holding {[ "show-1" := storedShow ]} (deployed "TVShows")) !! "show-1" with
    | None =>
        statusCode r = 404 ∧
        table w' = table (holding {[ "show-1" := storedShow ]} (deployed "TVShows")) ∧
        sent w' = sent (holding {[ "show-1" := storedShow ]} (deployed "TVShows"))
                  ++ [GetCommand (Some "TVShows") (JStr "show-1")]
    | Some _ =>
        statusCode r = 204 ∧ body r = Raw "" ∧
        headers r !! "Content-Type" = Some "application/json" ∧
        table w' =
          delete "show-1"
            (table (holding {[ "show-1" := storedShow ]} (deployed "TVShows"))) ∧
        sent w' = sent (holding {[ "show-1" := storedShow ]} (deployed "TVShows"))
                  ++ [GetCommand (Some "TVShows") (JStr "show-1");
                      DeleteCommand (Some "TVShows") (JStr "show-1")]
    end.
Proof.
  apply (TVShowsDoc_delete_checks "TVShows" "show-1"
           (holding {[ "show-1" := storedShow ]} (deployed "TVShows"))).
  repeat constructor.
Defined.
